(** * SimpleProjectileMotion: the simulation, its recorder and its analysis

    A shallow embedding of [config.py], [Renderer.py], [logger.py] and
    [graph.py], followed by the properties the specification states about
    them.

    Numbers. Python's [float] is idealised as a real number ([R]): rounding,
    infinities and NaN are outside the model, so an equation proved here is
    the exact-arithmetic reading of the corresponding Python expression.
    Python's [int] constants that meet floats ([0], [45], [9], [600]) are
    read as the reals they are promoted to.

    Effects. The game loop of [Renderer.py] mutates four module-level
    variables; it is embedded as a function on a record of those four.
    The recorder writes files; the file system is a finite map from file
    names to contents. Console output is a list of messages. *)

From Stdlib Require Import Reals Lra Lia Ascii.
From stdpp Require Import gmap strings.

Local Open Scope R_scope.

(** ** Comparisons of reals as booleans

    The source branches on [<], [>=] and [!=] of floats. *)

Definition Rltb (a b : R) : bool := if Rlt_dec a b then true else false.
Definition Rgeb (a b : R) : bool := if Rge_dec a b then true else false.
Definition Rneqb (a b : R) : bool := if Req_dec_T a b then false else true.

(** ** config.py *)

Module config.

(** The four tunables at the top of [config.py]. The file fixes one value
    for each ([source] below); the record lets a property range over every
    launch configuration. *)
Record t : Type := mk {
  InitialHeight : R;
  Theta : R;          (* angle in degrees *)
  Velocity : R;
  Gravity : R         (* m/s^2, negative because it acts downwards *)
}.

Definition source : t :=
  {| InitialHeight := 0; Theta := 45; Velocity := 9; Gravity := -9.81 |}.

(** [math.radians]: degrees times pi/180. *)
Definition radians (d : R) : R := d * (PI / 180).

Definition initialVelocityX (c : t) : R := cos (radians (Theta c)) * Velocity c.
Definition initialVelocityY (c : t) : R := sin (radians (Theta c)) * Velocity c.

End config.

(** ** Renderer.py *)

Module Renderer.

Definition WIDTH : R := 800.
Definition HEIGHT : R := 600.

(** Ground level *)
Definition GROUND_Y : R := HEIGHT - 100.

Definition BALL_RADIUS : R := 30.

(** Scaling: total height of monitor represents 10 meters *)
Definition PIXELS_PER_METER : R := HEIGHT / 10.

(** The variables the game loop reads and writes: the ball's bottom point
    in pixels and its velocity in m/s. *)
Record Ball : Type := mkBall {
  ball_bottom_x : R;
  ball_bottom_y : R;
  vx : R;
  vy : R
}.

(** Lines 30-37: the initial position (x = 0, y = InitialHeight, in meters)
    converted to pixel coordinates, and the velocity taken from the
    configuration. *)
Definition initial (c : config.t) : Ball :=
  let x := 0 in
  let y := config.InitialHeight c in
  {| ball_bottom_x := x * PIXELS_PER_METER;
     ball_bottom_y := GROUND_Y - (y * PIXELS_PER_METER);
     vx := config.initialVelocityX c;
     vy := config.initialVelocityY c |}.

(** The inverse of that conversion: the ball's position in world meters. *)
Definition world_x (b : Ball) : R := ball_bottom_x b / PIXELS_PER_METER.
Definition world_y (b : Ball) : R := (GROUND_Y - ball_bottom_y b) / PIXELS_PER_METER.

(** Line 65: [ball_bottom_y < GROUND_Y or (vx != 0 or vy != 0)]. *)
Definition physics_guard (b : Ball) : bool :=
  Rltb (ball_bottom_y b) GROUND_Y || (Rneqb (vx b) 0 || Rneqb (vy b) 0).

(** Lines 67-71: velocity first, then the position with the new velocity. *)
Definition integrate (c : config.t) (delta_time : R) (b : Ball) : Ball :=
  let vy' := vy b + config.Gravity c * delta_time in
  let ball_bottom_x' := ball_bottom_x b + vx b * delta_time * PIXELS_PER_METER in
  let ball_bottom_y' := ball_bottom_y b - vy' * delta_time * PIXELS_PER_METER in
  {| ball_bottom_x := ball_bottom_x';
     ball_bottom_y := ball_bottom_y';
     vx := vx b;
     vy := vy' |}.

(** Lines 74-78: check if ball hits ground; stop the ball (no bounce). *)
Definition ground_check (b : Ball) : Ball :=
  if Rgeb (ball_bottom_y b) GROUND_Y
  then {| ball_bottom_x := ball_bottom_x b;
          ball_bottom_y := GROUND_Y;
          vx := 0;
          vy := 0 |}
  else b.

(** Lines 65-78: the physics update of one frame. *)
Definition update_physics (c : config.t) (delta_time : R) (b : Ball) : Ball :=
  if physics_guard b then ground_check (integrate c delta_time b) else b.

(** The game loop, one [delta_time] per frame (what [clock.tick(60) / 1000.0]
    returned in that frame). Event handling and drawing do not touch the
    ball and are left out. *)
Fixpoint game_loop (c : config.t) (frames : list R) (b : Ball) : Ball :=
  match frames with
  | [] => b
  | delta_time :: rest => game_loop c rest (update_physics c delta_time b)
  end.

(** How many frames of the loop entered the physics branch. *)
Fixpoint integration_steps (c : config.t) (frames : list R) (b : Ball) : nat :=
  match frames with
  | [] => 0%nat
  | delta_time :: rest =>
      ((if physics_guard b then 1 else 0)
       + integration_steps c rest (update_physics c delta_time b))%nat
  end.

(** The two states of the specification's state machine. *)
Definition Airborne (b : Ball) : Prop := physics_guard b = true.
Definition Grounded (b : Ball) : Prop :=
  ball_bottom_y b = GROUND_Y /\ vx b = 0 /\ vy b = 0.

End Renderer.

(** ** logger.py *)

Module logger.

(** *** The clock and [strftime]

    What [datetime.now()] returns, field by field. *)
Record datetime : Type := mkDatetime {
  year : N;
  month : N;
  day : N;
  hour : N;
  minute : N;
  second : N
}.

(** The last decimal digit of [n], as a character. *)
Definition digit (n : N) : ascii := ascii_of_N (48 + n mod 10).

(** [%m], [%d], [%H], [%M] and [%S]: two digits, zero padded. *)
Definition two_digits (n : N) : string :=
  String (digit (n / 10)) (String (digit n) EmptyString).

(** [%Y]: the year in decimal, as the C library prints it (no padding). *)
Fixpoint decimal_aux (fuel : nat) (n : N) (acc : string) : string :=
  match fuel with
  | O => acc
  | S fuel' =>
      let acc' := String (digit n) acc in
      if (n / 10 =? 0)%N then acc' else decimal_aux fuel' (n / 10) acc'
  end.

Definition decimal (n : N) : string :=
  decimal_aux (S (N.to_nat n)) n EmptyString.

Definition directive (k : ascii) (d : datetime) : option string :=
  if Ascii.eqb k "Y" then Some (decimal (year d))
  else if Ascii.eqb k "m" then Some (two_digits (month d))
  else if Ascii.eqb k "d" then Some (two_digits (day d))
  else if Ascii.eqb k "H" then Some (two_digits (hour d))
  else if Ascii.eqb k "M" then Some (two_digits (minute d))
  else if Ascii.eqb k "S" then Some (two_digits (second d))
  else None.

(** [d.strftime(fmt)] for the six directives above; any other character,
    and a percent sign followed by anything else, is copied. *)
Fixpoint strftime (d : datetime) (fmt : string) : string :=
  match fmt with
  | EmptyString => EmptyString
  | String c rest =>
      match rest with
      | EmptyString => String c EmptyString
      | String k rest' =>
          if Ascii.eqb c "%" then
            match directive k d with
            | Some s => s +:+ strftime d rest'
            | None => String c (strftime d rest)
            end
          else String c (strftime d rest)
      end
  end.

(** *** Files, console and the csv writer *)

(** What the logger prints, with the values it interpolates (the layout of
    the text and the [.3f] rounding of the times are presentation). *)
Inductive message : Type :=
| Initialized (filename : string)
    (* Physics logger initialized. Data will be saved to: {filename} *)
| Complete (count : nat) (filename : string)
    (* Data logging complete. {count} data points saved to {filename} *)
| TimeRange (first last : R).
    (* Time range: {first}s to {last}s *)

(** The part of the outside world the logger acts on: the files by name,
    and the console. Opening a file is assumed to succeed. *)
Record World : Type := mkWorld {
  files : gmap string string;
  stdout : list message
}.

Definition print (m : message) (w : World) : World :=
  {| files := files w; stdout := stdout w ++ [m] |}.

(** [with open(name, 'w', newline='') as file: file.write(text)]: the
    file is created or truncated, then holds [text]. *)
Definition open_w_write (name text : string) (w : World) : World :=
  {| files := <[name := text]> (files w); stdout := stdout w |}.

(** [with open(name, 'a', newline='') as file: file.write(text)]: the
    file is created if missing, and [text] is added at its end. *)
Definition open_a_write (name text : string) (w : World) : World :=
  {| files := <[name := default EmptyString (files w !! name) +:+ text]> (files w);
     stdout := stdout w |}.

Definition CRLF : string := String "013" (String "010" EmptyString).

(** [csv.writer(file).writerow(cells)]: the cells separated by commas and
    the writer's line terminator. The cells this program writes (the
    header names and numbers) hold no comma, quote or line break, so the
    writer quotes none of them. *)
Definition writerow (cells : list string) : string :=
  String.concat "," cells +:+ CRLF.

(** *** PhysicsLogger *)

(** One entry of [self.data]: the five-element list
    [[time, x_pos, y_pos, vel_x, vel_y]] that [log_data] builds; its
    element 0 is the time. *)
Record data_point : Type := mkPoint {
  time : R;
  x_pos : R;
  y_pos : R;
  vel_x : R;
  vel_y : R
}.

Definition cells (p : data_point) : list R :=
  [time p; x_pos p; y_pos p; vel_x p; vel_y p].

Record PhysicsLogger : Type := mkLogger {
  filename : string;
  data : list data_point;
  headers : list string
}.

Definition HEADERS : list string :=
  ["Time"; "X_Position"; "Y_Position"; "Velocity_X"; "Velocity_Y"]%string.

(** [PhysicsLogger(filename)], at clock reading [now]. *)
Definition __init__ (filename : option string) (now : datetime) (w : World)
  : PhysicsLogger * World :=
  let filename :=
    match filename with
    | None =>
        let timestamp := strftime now "%Y%m%d_%H%M%S" in
        "projectile_data_" +:+ timestamp +:+ ".csv"
    | Some filename => filename
    end in
  let self := {| filename := filename; data := []; headers := HEADERS |} in
  (* Create CSV file with headers *)
  let w := open_w_write filename (writerow (headers self)) w in
  (self, print (Initialized filename) w).

Definition get_data_count (self : PhysicsLogger) : nat := length (data self).

(** [save_final]: prints the summary; the time range is read off the
    first and the last entry of [self.data]. *)
Definition save_final (self : PhysicsLogger) (w : World) : World :=
  let w := print (Complete (length (data self)) (filename self)) w in
  match data self with
  | [] => w
  | first :: _ => print (TimeRange (time first) (time (List.last (data self) first))) w
  end.

Definition clear_data (self : PhysicsLogger) (w : World) : PhysicsLogger * World :=
  let self := {| filename := filename self; data := []; headers := headers self |} in
  (self, open_w_write (filename self) (writerow (headers self)) w).

Section Rows.

(** How the csv writer prints a float. *)
Variable repr : R -> string.

Definition log_data (self : PhysicsLogger) (p : data_point) (w : World)
  : PhysicsLogger * World :=
  let self := {| filename := filename self;
                 data := data self ++ [p];
                 headers := headers self |} in
  (* Append to CSV file immediately *)
  (self, open_a_write (filename self) (writerow (map repr (cells p))) w).

(** A client's use of a logger after its construction. *)
Inductive call : Type :=
| Log (p : data_point)
| Clear
| SaveFinal.

Definition perform (c : call) (s : PhysicsLogger * World) : PhysicsLogger * World :=
  match c with
  | Log p => log_data (fst s) p (snd s)
  | Clear => clear_data (fst s) (snd s)
  | SaveFinal => (fst s, save_final (fst s) (snd s))
  end.

Definition perform_all (cs : list call) (s : PhysicsLogger * World)
  : PhysicsLogger * World :=
  fold_left (fun s c => perform c s) cs s.

End Rows.

End logger.

(** ** graph.py *)

Module graph.

(** *** Python's string methods, on ASCII text *)

(** [str.isspace] of one character: tab, line feed, vertical tab, form
    feed, carriage return, the four separators 28-31 and the space. *)
Definition isspace (c : ascii) : bool :=
  let n := nat_of_ascii c in
  ((9 <=? n) && (n <=? 13) || (28 <=? n) && (n <=? 32))%nat.

Fixpoint lstrip (s : string) : string :=
  match s with
  | EmptyString => EmptyString
  | String c rest => if isspace c then lstrip rest else s
  end.

Fixpoint rstrip (s : string) : string :=
  match s with
  | EmptyString => EmptyString
  | String c rest =>
      match rstrip rest with
      | EmptyString => if isspace c then EmptyString else String c EmptyString
      | kept => String c kept
      end
  end.

Definition strip (s : string) : string := rstrip (lstrip s).

Definition lower_char (c : ascii) : ascii :=
  let n := nat_of_ascii c in
  if ((65 <=? n) && (n <=? 90))%nat then ascii_of_nat (n + 32) else c.

Fixpoint lower (s : string) : string :=
  match s with
  | EmptyString => EmptyString
  | String c rest => String (lower_char c) (lower rest)
  end.

Fixpoint endswith (s suffix : string) : bool :=
  if String.eqb s suffix then true
  else match s with
       | EmptyString => false
       | String _ rest => endswith rest suffix
       end.

(** *** Exceptions, console and figure *)

Inductive exn : Type :=
| IndexError
| KeyError (key : string)
| ValueError
| EOFError.

(** What the analysis prints, with the values it interpolates. *)
Inductive message : Type :=
| Loaded (count : nat) (csv_filename : string)
| CouldNotFind (csv_filename : string)
| ErrorReadingCSV (why : string)
| GraphsSaved (csv_filename : string)
| Banner
| SimulationDuration (t : R)
| DataPoints (count : nat)
| InitialPosition (x y : R)
| FinalPosition (x y : R)
| InitialVelocity (vx vy : R)
| FinalVelocity (vx vy : R)
| MaximumHeight (y : R)
| Range (d : R)
| MaximumKineticEnergy (e : R)
| MinimumKineticEnergy (e : R)
| MaximumDisplacement (d : R).

(** What the analysis does to the outside: a line on the console, a curve
    on an axis (with the title or legend label it is drawn under), the
    numbers of a text box, the figure saved next to the csv file, the
    window shown. Colours, fonts and layout are left out. *)
Inductive event : Type :=
| Print (m : message)
| Plot (label : string) (x_data y_data : list R)
| Text (values : list R)
| SaveFig (csv_filename : string)
| Show.

(** A computation that leaves a trace of events and either returns or
    raises. *)
Definition M (A : Type) : Type := (list event * (exn + A))%type.

#[global] Instance M_ret : MRet M := fun A a => ([], inr a).

#[global] Instance M_bind : MBind M := fun A B f m =>
  match m with
  | (out, inl e) => (out, inl e)
  | (out, inr a) => let '(out', r) := f a in (out ++ out', r)
  end.

Definition emit (e : event) : M unit := ([e], inr tt).
Definition raise {A : Type} (e : exn) : M A := ([], inl e).

(** *** Frames and arrays *)

(** A pandas frame: its columns by name, in file order. *)
Definition DataFrame : Type := list (string * list R).

(** [len(df)]: the number of rows. *)
Definition len (df : DataFrame) : nat :=
  match df with
  | [] => 0%nat
  | (_, values) :: _ => length values
  end.

(** [df[key].values] *)
Fixpoint column (df : DataFrame) (key : string) : M (list R) :=
  match df with
  | [] => raise (KeyError key)
  | (name, values) :: rest =>
      if String.eqb name key then mret values else column rest key
  end.

(** [a[i]] for [i >= 0] *)
Definition item (a : list R) (i : nat) : M R :=
  match a !! i with
  | Some v => mret v
  | None => raise IndexError
  end.

(** [a[-1]] *)
Definition last_item (a : list R) : M R :=
  match a with
  | [] => raise IndexError
  | v :: _ => mret (List.last a v)
  end.

(** [a.max()] and [a.min()] of a numpy array. *)
Definition amax (a : list R) : M R :=
  match a with
  | [] => raise ValueError
  | v :: rest => mret (fold_left Rmax rest v)
  end.

Definition amin (a : list R) : M R :=
  match a with
  | [] => raise ValueError
  | v :: rest => mret (fold_left Rmin rest v)
  end.

(** The frame pandas reads from a csv file that holds the recorder's header
    row followed by one row per data point. *)
Definition frame_of (rows : list logger.data_point) : DataFrame :=
  [("Time"%string, map logger.time rows);
   ("X_Position"%string, map logger.x_pos rows);
   ("Y_Position"%string, map logger.y_pos rows);
   ("Velocity_X"%string, map logger.vel_x rows);
   ("Velocity_Y"%string, map logger.vel_y rows)].

(** What [pd.read_csv] finds under each name: a name that is absent is a
    missing file, [inl why] a file pandas cannot read (it raises something
    else than FileNotFoundError, as it does on a file of zero bytes), and
    [inr df] a file it parses into [df]. *)
Definition Disk : Type := gmap string (string + DataFrame).

(** *** The functions of graph.py *)

(** Calculate kinetic energy: KE = 0.5 * m * v^2; [mass] defaults to 1.0. *)
Definition calculate_kinetic_energy (vx vy : R) (mass : option R) : R :=
  0.5 * default 1 mass * (vx ^ 2 + vy ^ 2).

(** Calculate total displacement from initial position *)
Definition calculate_displacement (x y initial_x initial_y : R) : R :=
  sqrt ((x - initial_x) ^ 2 + (y - initial_y) ^ 2).

(** Load data from a CSV file. *)
Definition load_data (disk : Disk) (csv_filename : string) : M (option DataFrame) :=
  match disk !! csv_filename with
  | Some (inr df) =>
      _ ← emit (Print (Loaded (len df) csv_filename));
      mret (Some df)
  | None =>
      _ ← emit (Print (CouldNotFind csv_filename));
      mret None
  | Some (inl why) =>
      _ ← emit (Print (ErrorReadingCSV why));
      mret None
  end.

(** The arrays [generate_physics_graphs] works on. *)
Record Series : Type := mkSeries {
  time : list R;
  x_pos : list R;
  y_pos : list R;
  vx : list R;
  vy : list R;
  kinetic_energy : list R;
  displacement : list R
}.

(** Lines 80-88 of [generate_physics_graphs]: the five columns, the first
    position, and the two derived arrays. *)
Definition derive (df : DataFrame) : M Series :=
  time ← column df "Time";
  x_pos ← column df "X_Position";
  y_pos ← column df "Y_Position";
  vx ← column df "Velocity_X";
  vy ← column df "Velocity_Y";
  initial_x ← item x_pos 0;
  initial_y ← item y_pos 0;
  kinetic_energy ←
    mapM (M := M)
      (fun i => a ← item vx i; b ← item vy i;
                mret (calculate_kinetic_energy a b None))
      (seq 0 (length vx));
  displacement ←
    mapM (M := M)
      (fun i => a ← item x_pos i; b ← item y_pos i;
                mret (calculate_displacement a b initial_x initial_y))
      (seq 0 (length x_pos));
  mret (mkSeries time x_pos y_pos vx vy kinetic_energy displacement).

(** Prints a summary of the physics analysis. *)
Definition display_summary_statistics (s : Series) : M unit :=
  _ ← emit (Print Banner);
  t_end ← last_item (time s);
  _ ← emit (Print (SimulationDuration t_end));
  _ ← emit (Print (DataPoints (length (time s))));
  x0 ← item (x_pos s) 0; y0 ← item (y_pos s) 0;
  _ ← emit (Print (InitialPosition x0 y0));
  x1 ← last_item (x_pos s); y1 ← last_item (y_pos s);
  _ ← emit (Print (FinalPosition x1 y1));
  vx0 ← item (vx s) 0; vy0 ← item (vy s) 0;
  _ ← emit (Print (InitialVelocity vx0 vy0));
  vx1 ← last_item (vx s); vy1 ← last_item (vy s);
  _ ← emit (Print (FinalVelocity vx1 vy1));
  y_max ← amax (y_pos s);
  _ ← emit (Print (MaximumHeight y_max));
  x_max ← amax (x_pos s); x_min ← amin (x_pos s);
  _ ← emit (Print (Range (x_max - x_min)));
  ke_max ← amax (kinetic_energy s);
  _ ← emit (Print (MaximumKineticEnergy ke_max));
  ke_min ← amin (kinetic_energy s);
  _ ← emit (Print (MinimumKineticEnergy ke_min));
  d_max ← amax (displacement s);
  _ ← emit (Print (MaximumDisplacement d_max));
  emit (Print Banner).

(** Lines 90-142 of [generate_physics_graphs]: the four plots with their
    text boxes, the saved figure, the window and the summary. *)
Definition render (csv_filename : string) (save_plots : bool) (s : Series) : M unit :=
  (* 1. Kinetic Energy vs Time *)
  _ ← emit (Plot "Kinetic Energy vs Time" (time s) (kinetic_energy s));
  ke_max ← amax (kinetic_energy s); ke_min ← amin (kinetic_energy s);
  _ ← emit (Text [ke_max; ke_min]);
  (* 2. Trajectory (Y vs X) *)
  _ ← emit (Plot "Trajectory (Y vs X Position)" (x_pos s) (y_pos s));
  y_max ← amax (y_pos s); x_max ← amax (x_pos s); x_min ← amin (x_pos s);
  _ ← emit (Text [y_max; x_max - x_min]);
  (* 3. Velocity Components vs Time *)
  _ ← emit (Plot "Velocity Components vs Time" (time s) (vx s));
  _ ← emit (Plot "Velocity Y" (time s) (vy s));
  vx0 ← item (vx s) 0; vy_min ← amin (vy s); vy_max ← amax (vy s);
  _ ← emit (Text [vx0; vy_min; vy_max]);
  (* 4. Total Displacement vs Time *)
  _ ← emit (Plot "Displacement from Origin vs Time" (time s) (displacement s));
  d_max ← amax (displacement s); d_end ← last_item (displacement s);
  _ ← emit (Text [d_max; d_end]);
  _ ← (if save_plots
       then _ ← emit (SaveFig csv_filename);
            emit (Print (GraphsSaved csv_filename))
       else mret tt);
  _ ← emit Show;
  display_summary_statistics s.

(** Generate physics graphs from CSV data. *)
Definition generate_physics_graphs
    (disk : Disk) (csv_filename : string) (save_plots : bool) : M unit :=
  df ← load_data disk csv_filename;
  match df with
  | None => mret tt
  | Some df => s ← derive df; render csv_filename save_plots s
  end.

(** [input(prompt)]: the next line typed, from the lines still to come. *)
Definition input (stdin : list string) : exn + (string * list string) :=
  match stdin with
  | [] => inl EOFError
  | line :: rest => inr (line, rest)
  end.

(** Prompts the user for a CSV filename, offering the latest found file as
    default. Returns the name and the lines not yet read. *)
Definition get_csv_filename_from_user
    (latest_csv : option string) (stdin : list string)
  : exn + (string * list string) :=
  let ask (stdin : list string) :=
    match input stdin with
    | inl e => inl e
    | inr (line, stdin) =>
        let filename := strip line in
        inr (if endswith filename ".csv" then filename else filename +:+ ".csv",
             stdin)
    end in
  match latest_csv with
  | Some (String c rest as latest) =>
      match input stdin with
      | inl e => inl e
      | inr (line, stdin) =>
          let use_latest := lower (strip line) in
          if String.eqb use_latest "y" || String.eqb use_latest ""
          then inr (latest, stdin)
          else ask stdin
      end
  | _ => ask stdin
  end.

(** *** Finding the latest file, and the entry point *)

(** What is left of [s] after the literal [p], when [s] starts with it. *)
Fixpoint after_prefix (p s : string) : option string :=
  match p with
  | EmptyString => Some s
  | String a p' =>
      match s with
      | EmptyString => None
      | String b s' => if Ascii.eqb a b then after_prefix p' s' else None
      end
  end.

(** [fnmatch] of a file name against [projectile_data_*.csv]: the name
    starts with the text before the star, and what follows ends with the
    text after it. *)
Definition matches_pattern (name : string) : bool :=
  match after_prefix "projectile_data_" name with
  | Some rest => endswith rest ".csv"
  | None => false
  end.

(** [max(files, key=os.path.getmtime)] over a non-empty list, [best] being
    the greatest so far: a later file replaces it only when strictly more
    recent. *)
Fixpoint latest (best : string * R) (rest : list (string * R)) : string * R :=
  match rest with
  | [] => best
  | f :: rest' => latest (if Rltb (snd best) (snd f) then f else best) rest'
  end.

(** What [find_latest_csv] and [main] print themselves. *)
Inductive notice : Type :=
| GeneratorBanner
    (* --- Physics Graph Generator (NASA Themed) --- *)
| NoCsvFiles.
    (* No projectile data CSV files found in the current directory. *)

(** Find the most recent projectile data CSV file. [cwd] lists the current
    directory: each name with its modification time, in the order
    [glob.glob] meets them. *)
Definition find_latest_csv (cwd : list (string * R)) : list notice * option string :=
  let csv_files := List.filter (fun f => matches_pattern (fst f)) cwd in
  match csv_files with
  | [] => ([NoCsvFiles], None)
  | f :: rest => ([], Some (fst (latest f rest)))
  end.

(** What [main] leaves on the outside: its own notices and the events of
    the analysis. *)
Inductive main_event : Type :=
| Notice (n : notice)
| Analysis (e : event).

(** Main function to run the graph generator. *)
Definition main (cwd : list (string * R)) (stdin : list string) (disk : Disk)
  : list main_event * (exn + unit) :=
  let '(notices, latest_csv) := find_latest_csv cwd in
  let out := Notice GeneratorBanner :: map Notice notices in
  match get_csv_filename_from_user latest_csv stdin with
  | inl e => (out, inl e)
  | inr (csv_file, _) =>
      let '(trace, r) := generate_physics_graphs disk csv_file true in
      (out ++ map Analysis trace, r)
  end.

End graph.

(** ** Notions the specification uses *)

Module spec.

Definition isdigit (c : ascii) : bool :=
  let n := nat_of_ascii c in ((48 <=? n) && (n <=? 57))%nat.

Fixpoint all_digits (s : string) : bool :=
  match s with
  | EmptyString => true
  | String c rest => isdigit c && all_digits rest
  end.

(** The shape [YYYYMMDD_HHMMSS]: eight digits, an underscore, six digits. *)
Definition timestamp_shape (s : string) : bool :=
  (String.length s =? 15)%nat
  && all_digits (String.substring 0 8 s)
  && String.eqb (String.substring 8 1 s) "_"
  && all_digits (String.substring 9 6 s).

(** The shape [projectile_data_<YYYYMMDD_HHMMSS>.csv]. *)
Definition generated_name_shape (s : string) : bool :=
  (String.length s =? 35)%nat
  && String.eqb (String.substring 0 16 s) "projectile_data_"
  && timestamp_shape (String.substring 16 15 s)
  && String.eqb (String.substring 31 4 s) ".csv".

(** [YYYY]: four digits, zero padded. *)
Definition four_digits (n : N) : string :=
  String (logger.digit (n / 1000)) (String (logger.digit (n / 100))
    (String (logger.digit (n / 10)) (String (logger.digit n) EmptyString))).

(** The least and the greatest of a non-empty sequence of reals. *)
Fixpoint minimum (x : R) (xs : list R) : R :=
  match xs with
  | [] => x
  | y :: ys => Rmin x (minimum y ys)
  end.

Fixpoint maximum (x : R) (xs : list R) : R :=
  match xs with
  | [] => x
  | y :: ys => Rmax x (maximum y ys)
  end.

(** A non-empty sequence of reals that never decreases. *)
Fixpoint nondecreasing (x : R) (xs : list R) : Prop :=
  match xs with
  | [] => True
  | y :: ys => x <= y /\ nondecreasing y ys
  end.

End spec.

(** ** Notions used to describe whole runs *)

Module run.

(** The simulated time a list of frames spans: the sum of their
    [delta_time]s. *)
Definition elapsed (frames : list R) : R := fold_right Rplus 0 frames.

(** The text of the data rows a csv file holds for a list of entries, one
    row per entry, in order, floats printed by [repr]. *)
Fixpoint rows_text (repr : R -> string) (entries : list logger.data_point) : string :=
  match entries with
  | [] => EmptyString
  | p :: rest =>
      logger.writerow (map repr (logger.cells p)) +:+ rows_text repr rest
  end.

(** A clock reading whose fields have the width [strftime] prints them
    with: a four-digit year, the others below 100. *)
Definition printable (d : logger.datetime) : Prop :=
  (1000 <= logger.year d <= 9999)%N /\
  (logger.month d < 100)%N /\ (logger.day d < 100)%N /\
  (logger.hour d < 100)%N /\ (logger.minute d < 100)%N /\
  (logger.second d < 100)%N.

(** A line of white space only (possibly empty). *)
Fixpoint blank (s : string) : bool :=
  match s with
  | EmptyString => true
  | String c rest => graph.isspace c && blank rest
  end.

(** The five columns the analysis reads. *)
Definition required_columns : list string :=
  ["Time"; "X_Position"; "Y_Position"; "Velocity_X"; "Velocity_Y"]%string.

End run.

(* ================================================================== *)
(** * Properties *)

(** ** Reading the boolean comparisons *)

Lemma Rltb_true (a b : R) : Rltb a b = true <-> a < b.
Proof. unfold Rltb. destruct (Rlt_dec a b); split; intros; try lra; congruence. Qed.

Lemma Rltb_false (a b : R) : Rltb a b = false <-> b <= a.
Proof. unfold Rltb. destruct (Rlt_dec a b); split; intros; try lra; congruence. Qed.

Lemma Rgeb_true (a b : R) : Rgeb a b = true <-> b <= a.
Proof. unfold Rgeb. destruct (Rge_dec a b); split; intros; try lra; congruence. Qed.

Lemma Rgeb_false (a b : R) : Rgeb a b = false <-> a < b.
Proof. unfold Rgeb. destruct (Rge_dec a b); split; intros; try lra; congruence. Qed.

Lemma Rneqb_true (a b : R) : Rneqb a b = true <-> a <> b.
Proof. unfold Rneqb. destruct (Req_dec_T a b); split; intros; congruence. Qed.

Lemma Rneqb_false (a b : R) : Rneqb a b = false <-> a = b.
Proof.
  unfold Rneqb. destruct (Req_dec_T a b); split; intros; try congruence.
Qed.

Section RendererFacts.
Import Renderer.

Lemma PIXELS_PER_METER_value : PIXELS_PER_METER = 60.
Proof. unfold PIXELS_PER_METER, HEIGHT. lra. Qed.

Lemma GROUND_Y_value : GROUND_Y = 500.
Proof. unfold GROUND_Y, HEIGHT. lra. Qed.

(** Below the ground line in pixels is at or under zero in meters. *)
Lemma world_y_nonpos (b : Ball) :
  world_y b <= 0 <-> GROUND_Y <= ball_bottom_y b.
Proof.
  unfold world_y. rewrite PIXELS_PER_METER_value. split; intros H; lra.
Qed.

Lemma Grounded_not_Airborne (b : Ball) : Grounded b -> physics_guard b = false.
Proof.
  intros (Hy & Hvx & Hvy). unfold physics_guard.
  rewrite Hy, Hvx, Hvy.
  assert (Rltb GROUND_Y GROUND_Y = false) as -> by (apply Rltb_false; lra).
  assert (Rneqb 0 0 = false) as -> by (apply Rneqb_false; reflexivity).
  reflexivity.
Qed.

Lemma Grounded_update (c : config.t) (dt : R) (b : Ball) :
  Grounded b -> update_physics c dt b = b.
Proof.
  intros H. unfold update_physics. rewrite (Grounded_not_Airborne b H). reflexivity.
Qed.

Lemma Grounded_game_loop (c : config.t) (frames : list R) (b : Ball) :
  Grounded b ->
  game_loop c frames b = b /\ integration_steps c frames b = 0%nat.
Proof.
  intros H. induction frames as [|dt rest IH]; simpl.
  - split; reflexivity.
  - rewrite (Grounded_update c dt b H), (Grounded_not_Airborne b H).
    destruct IH as [-> ->]. split; reflexivity.
Qed.

End RendererFacts.

(* ------------------------------------------------------------------ *)
(** ** The integrator (Renderer.py, lines 64-78) *)

Section Integrator.
Import Renderer.

(** C1. From an airborne ball and for a time increment [dt > 0], the
    integration of one frame is semi-implicit Euler: the new vertical
    velocity is exactly the old one plus [Gravity * dt], the horizontal
    velocity is kept, and the position advances by the velocity times
    [dt], for [y] with the velocity just updated. In meters
    [x' = x + vx * dt] and [y' = y + vy' * dt]; in pixels the same rule
    scaled by [PIXELS_PER_METER], subtracted for [y] since the screen's y
    axis points down. The frame's result is this ball put through the
    ground check, and it is this very ball when it stays above the ground
    line. *)
Theorem C1_semi_implicit_euler (c : config.t) (b : Ball) (dt : R) :
  Airborne b -> 0 < dt ->
  let b' := integrate c dt b in
  vy b' = vy b + config.Gravity c * dt /\
  vx b' = vx b /\
  world_x b' = world_x b + vx b * dt /\
  world_y b' = world_y b + vy b' * dt /\
  ball_bottom_x b' = ball_bottom_x b + (vx b * dt) * PIXELS_PER_METER /\
  ball_bottom_y b' = ball_bottom_y b - (vy b' * dt) * PIXELS_PER_METER /\
  update_physics c dt b = ground_check b' /\
  (ball_bottom_y b' < GROUND_Y -> update_physics c dt b = b').
Proof.
  intros Hair Hdt b'.
  assert (Hupd : update_physics c dt b = ground_check b')
    by (unfold update_physics; rewrite Hair; reflexivity).
  assert (Hstay : ball_bottom_y b' < GROUND_Y -> update_physics c dt b = b').
  { intros Habove. rewrite Hupd. unfold ground_check.
    apply Rgeb_false in Habove. rewrite Habove. reflexivity. }
  split; [reflexivity|]. split; [reflexivity|].
  split.
  { unfold world_x, b', integrate; cbn [ball_bottom_x].
    rewrite PIXELS_PER_METER_value. lra. }
  split.
  { unfold world_y, b', integrate; cbn [ball_bottom_y vy].
    rewrite PIXELS_PER_METER_value. lra. }
  split; [reflexivity|]. split; [reflexivity|].
  split; [exact Hupd | exact Hstay].
Qed.

Lemma C1_semi_implicit_euler_witness :
  let c := config.source in
  let b := mkBall 0 440 3 4 in
  let dt := / 10 in
  Airborne b /\ 0 < dt /\
  vy (integrate c dt b) = 4 + -9.81 * / 10 /\
  world_y (integrate c dt b) = 1 + (4 + -9.81 * / 10) * / 10 /\
  update_physics c dt b = integrate c dt b.
Proof.
  cbv zeta.
  assert (Hair : Airborne (mkBall 0 440 3 4)).
  { unfold Airborne, physics_guard; cbn [ball_bottom_y].
    assert (Rltb 440 GROUND_Y = true) as ->
      by (apply Rltb_true; rewrite GROUND_Y_value; lra).
    reflexivity. }
  assert (Hdt : 0 < / 10) by lra.
  pose proof (C1_semi_implicit_euler config.source (mkBall 0 440 3 4) (/ 10) Hair Hdt)
    as (Hvy & _ & _ & Hy & _ & _ & _ & Hstay).
  split; [exact Hair|]. split; [exact Hdt|].
  split; [exact Hvy|].
  split.
  - rewrite Hy, Hvy. unfold world_y; cbn [ball_bottom_y vy].
    rewrite GROUND_Y_value, PIXELS_PER_METER_value. cbn [config.Gravity config.source]. lra.
  - apply Hstay. unfold integrate; cbn [ball_bottom_y vy vx ball_bottom_x].
    rewrite GROUND_Y_value, PIXELS_PER_METER_value. cbn [config.Gravity config.source]. lra.
Defined.

(** C2. From an airborne ball, when the position update of a frame puts
    the ball at or under the ground ([y <= 0] in meters, which is
    [ball_bottom_y >= GROUND_Y] in pixels), the frame leaves it exactly on
    the ground line with both velocities exactly zero, that is Grounded;
    its x is the one the position update produced, with no interpolation
    of the contact point. *)
Theorem C2_ground_contact (c : config.t) (b : Ball) (dt : R) :
  Airborne b ->
  world_y (integrate c dt b) <= 0 ->
  let b' := update_physics c dt b in
  GROUND_Y <= ball_bottom_y (integrate c dt b) /\
  ball_bottom_y b' = GROUND_Y /\
  world_y b' = 0 /\
  vx b' = 0 /\
  vy b' = 0 /\
  ball_bottom_x b' = ball_bottom_x (integrate c dt b) /\
  world_x b' = world_x b + vx b * dt /\
  Grounded b' /\
  physics_guard b' = false.
Proof.
  intros Hair Hy b'.
  apply world_y_nonpos in Hy.
  assert (Hb' : b' = mkBall (ball_bottom_x (integrate c dt b)) GROUND_Y 0 0).
  { subst b'. unfold update_physics. rewrite Hair. unfold ground_check.
    apply Rgeb_true in Hy. rewrite Hy. reflexivity. }
  assert (Hg : Grounded b') by (rewrite Hb'; repeat split).
  rewrite Hb'. cbn [ball_bottom_x ball_bottom_y vx vy].
  split; [exact Hy|].
  split; [reflexivity|].
  split; [unfold world_y; cbn [ball_bottom_y]; rewrite PIXELS_PER_METER_value; lra|].
  split; [reflexivity|]. split; [reflexivity|]. split; [reflexivity|].
  split.
  { unfold world_x, integrate; cbn [ball_bottom_x].
    rewrite PIXELS_PER_METER_value. lra. }
  rewrite <- Hb'. split; [exact Hg|]. apply Grounded_not_Airborne, Hg.
Qed.

Lemma C2_ground_contact_witness :
  let c := config.source in
  let b := mkBall 120 499 3 (-6) in
  let dt := / 2 in
  Airborne b /\ world_y (integrate c dt b) <= 0 /\
  update_physics c dt b = mkBall 210 500 0 0.
Proof.
  cbv zeta.
  assert (Hair : Airborne (mkBall 120 499 3 (-6))).
  { unfold Airborne, physics_guard; cbn [ball_bottom_y].
    assert (Rltb 499 GROUND_Y = true) as ->
      by (apply Rltb_true; rewrite GROUND_Y_value; lra).
    reflexivity. }
  assert (Hy : world_y (integrate config.source (/ 2) (mkBall 120 499 3 (-6))) <= 0).
  { unfold world_y, integrate; cbn [ball_bottom_y vy vx ball_bottom_x].
    rewrite GROUND_Y_value, PIXELS_PER_METER_value. cbn [config.Gravity config.source]. lra. }
  pose proof (C2_ground_contact config.source (mkBall 120 499 3 (-6)) (/ 2) Hair Hy)
    as (_ & Hby & _ & Hvx & Hvy & Hbx & _).
  split; [exact Hair|]. split; [exact Hy|].
  destruct (update_physics config.source (/ 2) (mkBall 120 499 3 (-6))) as [px py qx qy].
  cbn [ball_bottom_x ball_bottom_y vx vy] in *.
  rewrite Hby, Hvx, Hvy, Hbx, GROUND_Y_value.
  unfold integrate; cbn [ball_bottom_x vx]. rewrite PIXELS_PER_METER_value.
  f_equal; lra.
Defined.

(** C3. Grounded is terminal: from a ball on the ground line with both
    velocities zero, every later frame, whatever its time increment,
    leaves all four fields unchanged; no frame enters the physics branch,
    so the ball is never airborne again. *)
Theorem C3_grounded_terminal (c : config.t) (b : Ball) :
  Grounded b ->
  forall frames : list R,
    game_loop c frames b = b /\
    integration_steps c frames b = 0%nat /\
    Grounded (game_loop c frames b) /\
    ~ Airborne (game_loop c frames b).
Proof.
  intros Hg frames.
  destruct (Grounded_game_loop c frames b Hg) as [Hloop Hsteps].
  rewrite Hloop. repeat split; try assumption; try apply Hg.
  unfold Airborne. rewrite (Grounded_not_Airborne b Hg). discriminate.
Qed.

Lemma C3_grounded_terminal_witness :
  Grounded (mkBall 210 GROUND_Y 0 0) /\
  game_loop config.source [/ 60; / 2; 0; -1] (mkBall 210 GROUND_Y 0 0)
    = mkBall 210 GROUND_Y 0 0.
Proof.
  assert (Hg : Grounded (mkBall 210 GROUND_Y 0 0)) by (repeat split).
  split; [exact Hg|].
  exact (proj1 (C3_grounded_terminal config.source _ Hg [/ 60; / 2; 0; -1])).
Defined.

(** C5. With initial height zero and both initial velocity components
    zero, the ball starts Grounded: the guard, which the loop evaluates
    before it integrates, is false for the initial ball, so whatever frames
    follow, no integration is applied and the ball never moves. *)
Theorem C5_zero_initial_state (c : config.t) :
  config.InitialHeight c = 0 ->
  config.initialVelocityX c = 0 ->
  config.initialVelocityY c = 0 ->
  Grounded (initial c) /\
  world_y (initial c) = 0 /\
  physics_guard (initial c) = false /\
  forall frames : list R,
    integration_steps c frames (initial c) = 0%nat /\
    game_loop c frames (initial c) = initial c.
Proof.
  intros Hh Hvx Hvy.
  assert (Hg : Grounded (initial c)).
  { unfold Grounded, initial; cbn [ball_bottom_y vx vy].
    rewrite Hh. repeat split; try assumption. lra. }
  split; [exact Hg|].
  split.
  { unfold world_y, initial; cbn [ball_bottom_y]. rewrite Hh, PIXELS_PER_METER_value. lra. }
  split; [apply Grounded_not_Airborne, Hg|].
  intros frames. destruct (Grounded_game_loop c frames _ Hg) as [-> ->].
  split; reflexivity.
Qed.

Lemma C5_zero_initial_state_witness :
  let c := config.mk 0 45 0 (-9.81) in
  config.InitialHeight c = 0 /\
  config.initialVelocityX c = 0 /\
  config.initialVelocityY c = 0 /\
  game_loop c [/ 60; / 60; / 60] (initial c) = initial c.
Proof.
  cbv zeta.
  assert (Hh : config.InitialHeight (config.mk 0 45 0 (-9.81)) = 0) by reflexivity.
  assert (Hx : config.initialVelocityX (config.mk 0 45 0 (-9.81)) = 0)
    by (unfold config.initialVelocityX; cbn [config.Velocity]; lra).
  assert (Hy : config.initialVelocityY (config.mk 0 45 0 (-9.81)) = 0)
    by (unfold config.initialVelocityY; cbn [config.Velocity]; lra).
  split; [exact Hh|]. split; [exact Hx|]. split; [exact Hy|].
  pose proof (C5_zero_initial_state _ Hh Hx Hy) as (_ & _ & _ & Hall).
  exact (proj2 (Hall [/ 60; / 60; / 60])).
Defined.

End Integrator.

(* ------------------------------------------------------------------ *)
(** ** The configuration (config.py) *)

Section Configuration.

Lemma radians_45 : config.radians 45 = PI / 4.
Proof. unfold config.radians. lra. Qed.

Lemma radians_90 : config.radians 90 = PI / 2.
Proof. unfold config.radians. lra. Qed.

(** Nine over the square root of two, to two decimals. *)
Lemma nine_over_sqrt2 : 6.36 < 1 / sqrt 2 * 9 < 6.365.
Proof.
  assert (Hpos : 0 < sqrt 2) by (apply sqrt_lt_R0; lra).
  assert (Hsq : sqrt 2 * sqrt 2 = 2) by (apply sqrt_sqrt; lra).
  replace (1 / sqrt 2 * 9) with (9 / sqrt 2) by (field; lra).
  split.
  - apply (Rmult_lt_reg_r (sqrt 2)); [exact Hpos|].
    replace (9 / sqrt 2 * sqrt 2) with 9 by (field; lra). nra.
  - apply (Rmult_lt_reg_r (sqrt 2)); [exact Hpos|].
    replace (9 / sqrt 2 * sqrt 2) with 9 by (field; lra). nra.
Qed.

(** C8. For every launch configuration the initial velocity components are
    the launch speed times the cosine, respectively the sine, of the launch
    angle, the angle being given in degrees and turned into radians
    (times pi/180) before the cosine and sine are taken: a launch at 90
    degrees is straight up, and the repository's 45 degrees at speed 9
    gives both components between 6.36 and 6.365 m/s. *)
Theorem C8_initial_velocity_components (c : config.t) :
  config.initialVelocityX c
    = config.Velocity c * cos (config.Theta c * PI / 180) /\
  config.initialVelocityY c
    = config.Velocity c * sin (config.Theta c * PI / 180) /\
  config.radians 180 = PI /\
  (forall h v g : R,
     config.initialVelocityX (config.mk h 90 v g) = 0 /\
     config.initialVelocityY (config.mk h 90 v g) = v) /\
  6.36 < config.initialVelocityX config.source < 6.365 /\
  6.36 < config.initialVelocityY config.source < 6.365.
Proof.
  split.
  { unfold config.initialVelocityX, config.radians.
    replace (config.Theta c * (PI / 180)) with (config.Theta c * PI / 180) by lra.
    apply Rmult_comm. }
  split.
  { unfold config.initialVelocityY, config.radians.
    replace (config.Theta c * (PI / 180)) with (config.Theta c * PI / 180) by lra.
    apply Rmult_comm. }
  split; [unfold config.radians; lra|].
  split.
  { intros h v g.
    unfold config.initialVelocityX, config.initialVelocityY;
      cbn [config.Theta config.Velocity].
    rewrite radians_90, cos_PI2, sin_PI2. split; lra. }
  unfold config.initialVelocityX, config.initialVelocityY, config.source;
    cbn [config.Theta config.Velocity].
  rewrite radians_45, cos_PI4, sin_PI4.
  split; exact nine_over_sqrt2.
Qed.

End Configuration.

(* ------------------------------------------------------------------ *)
(** ** The analysis (graph.py) *)

Section Analysis.
Import graph.

Lemma bind_pure {A B : Type} (a : A) (f : A -> M B) : (mret a ≫= f) = f a.
Proof.
  unfold mbind, M_bind, mret, M_ret. destruct (f a) as [out r]. reflexivity.
Qed.

Lemma mapM_cons {A B : Type} (f : A -> M B) (x : A) (l : list A) :
  mapM (M := M) f (x :: l) = (y ← f x; k ← mapM (M := M) f l; mret (y :: k)).
Proof. reflexivity. Qed.

Lemma item_middle {T : Type} (g : T -> R) (pre : list T) (p : T) (rows : list T) :
  item (map g (pre ++ p :: rows)) (length pre) = mret (g p).
Proof.
  unfold item. rewrite list_lookup_fmap, list_lookup_middle by reflexivity.
  reflexivity.
Qed.

(** The list comprehensions of lines 87 and 88, run over two columns of the
    same rows, visit every row once and in order. *)
Lemma mapM_items_from {T : Type} (f : R -> R -> R) (g h : T -> R) (rows pre : list T) :
  mapM (M := M)
    (fun i => a ← item (map g (pre ++ rows)) i;
              b ← item (map h (pre ++ rows)) i;
              mret (f a b))
    (seq (length pre) (length rows))
  = mret (map (fun p => f (g p) (h p)) rows).
Proof.
  revert pre. induction rows as [|p rows IH]; intros pre.
  - reflexivity.
  - cbn [length seq]. rewrite mapM_cons.
    rewrite !item_middle, !bind_pure.
    replace (pre ++ p :: rows) with ((pre ++ [p]) ++ rows)
      by (rewrite <- app_assoc; reflexivity).
    replace (S (length pre)) with (length (pre ++ [p]))
      by (rewrite length_app; cbn; lia).
    rewrite IH, bind_pure. reflexivity.
Qed.

Lemma mapM_items {T : Type} (f : R -> R -> R) (g h : T -> R) (rows : list T) :
  mapM (M := M)
    (fun i => a ← item (map g rows) i;
              b ← item (map h rows) i;
              mret (f a b))
    (seq 0 (length (map g rows)))
  = mret (map (fun p => f (g p) (h p)) rows).
Proof. rewrite length_map. exact (mapM_items_from f g h rows []). Qed.

Lemma column_frame_of (rows : list logger.data_point) :
  column (frame_of rows) "Time" = mret (map logger.time rows) /\
  column (frame_of rows) "X_Position" = mret (map logger.x_pos rows) /\
  column (frame_of rows) "Y_Position" = mret (map logger.y_pos rows) /\
  column (frame_of rows) "Velocity_X" = mret (map logger.vel_x rows) /\
  column (frame_of rows) "Velocity_Y" = mret (map logger.vel_y rows).
Proof. repeat split; reflexivity. Qed.

(** On a frame with at least one row, lines 80-88 raise nothing. *)
Lemma derive_rows (first : logger.data_point) (rest : list logger.data_point) :
  derive (frame_of (first :: rest))
  = mret
      (mkSeries
         (map logger.time (first :: rest))
         (map logger.x_pos (first :: rest))
         (map logger.y_pos (first :: rest))
         (map logger.vel_x (first :: rest))
         (map logger.vel_y (first :: rest))
         (map (fun p => calculate_kinetic_energy (logger.vel_x p) (logger.vel_y p) None)
              (first :: rest))
         (map (fun p => calculate_displacement (logger.x_pos p) (logger.y_pos p)
                          (logger.x_pos first) (logger.y_pos first))
              (first :: rest))).
Proof.
  unfold derive.
  destruct (column_frame_of (first :: rest)) as (-> & -> & -> & -> & ->).
  rewrite !bind_pure.
  change (item (map logger.x_pos (first :: rest)) 0)
    with (mret (M := M) (logger.x_pos first)).
  change (item (map logger.y_pos (first :: rest)) 0)
    with (mret (M := M) (logger.y_pos first)).
  rewrite !bind_pure.
  rewrite (mapM_items (fun a b => calculate_kinetic_energy a b None)).
  rewrite bind_pure.
  rewrite (mapM_items (fun a b =>
             calculate_displacement a b (logger.x_pos first) (logger.y_pos first))).
  rewrite bind_pure. reflexivity.
Qed.

(** On a frame with no row, line 86 raises. *)
Lemma derive_no_rows : derive (frame_of []) = ([], inl IndexError).
Proof. reflexivity. Qed.

(** With no empty array, lines 90-142 raise nothing, and draw the energy
    and the displacement against time. *)
Lemma render_returns (f : string) (save : bool) (s : Series) :
  time s <> [] -> x_pos s <> [] -> y_pos s <> [] -> vx s <> [] -> vy s <> [] ->
  kinetic_energy s <> [] -> displacement s <> [] ->
  exists trace,
    render f save s = (trace, inr tt) /\
    Plot "Kinetic Energy vs Time" (time s) (kinetic_energy s) ∈ trace /\
    Plot "Displacement from Origin vs Time" (time s) (displacement s) ∈ trace.
Proof.
  destruct s as [t x y u v ke d];
    cbn [time x_pos y_pos vx vy kinetic_energy displacement].
  intros Ht Hx Hy Hu Hv Hke Hd.
  destruct t as [|t0 t]; [congruence|].
  destruct x as [|x0 x]; [congruence|].
  destruct y as [|y0 y]; [congruence|].
  destruct u as [|u0 u]; [congruence|].
  destruct v as [|v0 v]; [congruence|].
  destruct ke as [|ke0 ke]; [congruence|].
  destruct d as [|d0 d]; [congruence|].
  destruct save; eexists; (split; [|split]);
    try (unfold render, display_summary_statistics;
         cbn [time x_pos y_pos vx vy kinetic_energy displacement
              mbind M_bind mret M_ret emit raise amax amin item last_item
              lookup list_lookup app];
         reflexivity);
    set_solver.
Qed.

Lemma generate_loaded (disk : Disk) (f : string) (save : bool) (df : DataFrame) :
  disk !! f = Some (inr df) ->
  generate_physics_graphs disk f save
  = (_ ← emit (Print (Loaded (len df) f));
     s ← derive df; render f save s).
Proof.
  intros Hf. unfold generate_physics_graphs, load_data. rewrite Hf.
  unfold mbind, M_bind, emit, mret, M_ret.
  destruct (derive df) as [out [e|s]]; [reflexivity|].
  destruct (render f save s) as [out' r]. reflexivity.
Qed.

(** C4. A missing file is reported ("Could not find file") and nothing
    else is done. An empty dataset is not handled: on a frame with the
    five columns and no row (what pandas reads from a file holding only the
    header row, the file a recorder leaves when nothing was logged),
    [generate_physics_graphs] reports the load of 0 data points and then
    raises IndexError at [x_pos[0]]; there is no "no data" report. *)
Theorem C4_empty_dataset_raises_IndexError :
  (forall (disk : Disk) (f : string) (save : bool),
     disk !! f = None ->
     generate_physics_graphs disk f save = ([Print (CouldNotFind f)], inr tt)) /\
  derive (frame_of []) = ([], inl IndexError) /\
  (forall (disk : Disk) (f : string) (save : bool),
     disk !! f = Some (inr (frame_of [])) ->
     generate_physics_graphs disk f save
     = ([Print (Loaded 0 f)], inl IndexError)) /\
  generate_physics_graphs
    {[ "projectile_data_20250601_123456.csv"%string := inr (frame_of []) ]}
    "projectile_data_20250601_123456.csv" true
  = ([Print (Loaded 0 "projectile_data_20250601_123456.csv")], inl IndexError).
Proof.
  assert (Hempty : forall (disk : Disk) (f : string) (save : bool),
             disk !! f = Some (inr (frame_of [])) ->
             generate_physics_graphs disk f save
             = ([Print (Loaded 0 f)], inl IndexError)).
  { intros disk f save Hf. rewrite (generate_loaded disk f save _ Hf).
    reflexivity. }
  split.
  { intros disk f save Hf. unfold generate_physics_graphs, load_data.
    rewrite Hf. reflexivity. }
  split; [exact derive_no_rows|].
  split; [exact Hempty|].
  apply Hempty. apply lookup_singleton_eq.
Qed.

(** C9. For the trajectory loaded from a file with at least one row, the
    analysis computes, sample by sample, the kinetic energy
    [0.5 * mass * (vx^2 + vy^2)] with the default mass 1.0, and the
    displacement as the Euclidean distance from the sample's (x, y) to the
    first sample's; the displacement of the first sample is exactly 0.
    The whole analysis then returns, having drawn both series against
    time. *)
Theorem C9_kinetic_energy_and_displacement
    (first : logger.data_point) (rest : list logger.data_point) :
  let rows := first :: rest in
  let ke := fun p => 0.5 * 1 * (logger.vel_x p ^ 2 + logger.vel_y p ^ 2) in
  let dist := fun p =>
    sqrt ((logger.x_pos p - logger.x_pos first) ^ 2
          + (logger.y_pos p - logger.y_pos first) ^ 2) in
  (forall (u v m : R),
     calculate_kinetic_energy u v None = 0.5 * 1 * (u ^ 2 + v ^ 2) /\
     calculate_kinetic_energy u v (Some m) = 0.5 * m * (u ^ 2 + v ^ 2)) /\
  derive (frame_of rows)
  = ([], inr (mkSeries (map logger.time rows)
                       (map logger.x_pos rows) (map logger.y_pos rows)
                       (map logger.vel_x rows) (map logger.vel_y rows)
                       (map ke rows) (map dist rows))) /\
  map dist rows !! 0%nat = Some 0 /\
  (forall (disk : Disk) (f : string) (save : bool),
     disk !! f = Some (inr (frame_of rows)) ->
     exists trace,
       generate_physics_graphs disk f save = (trace, inr tt) /\
       Plot "Kinetic Energy vs Time" (map logger.time rows) (map ke rows) ∈ trace /\
       Plot "Displacement from Origin vs Time" (map logger.time rows) (map dist rows)
         ∈ trace).
Proof.
  intros rows ke dist.
  assert (Hderive : derive (frame_of rows)
            = ([], inr (mkSeries (map logger.time rows)
                       (map logger.x_pos rows) (map logger.y_pos rows)
                       (map logger.vel_x rows) (map logger.vel_y rows)
                       (map ke rows) (map dist rows))))
    by exact (derive_rows first rest).
  split; [intros u v m; split; reflexivity|].
  split; [exact Hderive|].
  split.
  { cbn [rows map lookup list_lookup]. f_equal. unfold dist.
    replace ((logger.x_pos first - logger.x_pos first) ^ 2
             + (logger.y_pos first - logger.y_pos first) ^ 2) with 0 by ring.
    apply sqrt_0. }
  intros disk f save Hf.
  rewrite (generate_loaded disk f save _ Hf), Hderive.
  destruct (render_returns f save
              (mkSeries (map logger.time rows)
                        (map logger.x_pos rows) (map logger.y_pos rows)
                        (map logger.vel_x rows) (map logger.vel_y rows)
                        (map ke rows) (map dist rows)))
    as (trace & Hrender & Hke & Hdist); try (cbn; discriminate).
  cbn [time kinetic_energy displacement] in Hke, Hdist.
  exists (Print (Loaded (len (frame_of rows)) f) :: trace).
  split.
  - unfold mbind, M_bind, emit. rewrite Hrender. reflexivity.
  - split; apply list_elem_of_further; assumption.
Qed.

End Analysis.

(* ------------------------------------------------------------------ *)
(** ** The recorder (logger.py) *)

Section Recorder.
Import logger.

(** Linear arithmetic with division and remainder by constants. *)
Ltac div_lia := zify; Z.to_euclidean_division_equations; lia.

Lemma isdigit_digit (n : N) : spec.isdigit (digit n) = true.
Proof.
  unfold spec.isdigit, digit, nat_of_ascii.
  rewrite N_ascii_embedding by div_lia.
  apply andb_true_intro; split; apply Nat.leb_le; div_lia.
Qed.

Lemma decimal_aux_step (fuel : nat) (n : N) (acc : string) :
  decimal_aux (S fuel) n acc
  = if (n / 10 =? 0)%N then String (digit n) acc
    else decimal_aux fuel (n / 10) (String (digit n) acc).
Proof. reflexivity. Qed.

(** From 1000 to 9999 the C library's [%Y] prints four digits. *)
Lemma decimal_four_digits (y : N) :
  (1000 <= y <= 9999)%N -> decimal y = spec.four_digits y.
Proof.
  intros Hy. unfold decimal, spec.four_digits.
  remember (N.to_nat y) as fuel eqn:E.
  destruct fuel as [|[|[|fuel]]]; try lia.
  rewrite decimal_aux_step.
  destruct (N.eqb_spec (y / 10) 0) as [H0|_]; [exfalso; div_lia|].
  rewrite decimal_aux_step.
  destruct (N.eqb_spec (y / 10 / 10) 0) as [H0|_]; [exfalso; div_lia|].
  rewrite decimal_aux_step.
  destruct (N.eqb_spec (y / 10 / 10 / 10) 0) as [H0|_]; [exfalso; div_lia|].
  rewrite decimal_aux_step.
  destruct (N.eqb_spec (y / 10 / 10 / 10 / 10) 0) as [_|H0]; [|exfalso; div_lia].
  replace (y / 10 / 10 / 10)%N with (y / 1000)%N by div_lia.
  replace (y / 10 / 10)%N with (y / 100)%N by div_lia.
  reflexivity.
Qed.

Lemma strftime_timestamp (now : datetime) :
  strftime now "%Y%m%d_%H%M%S"
  = decimal (year now) +:+ two_digits (month now) +:+ two_digits (day now)
    +:+ "_" +:+ two_digits (hour now) +:+ two_digits (minute now)
    +:+ two_digits (second now).
Proof. reflexivity. Qed.

Lemma shape_of_digits (a b c d e f g h i j k l m n : ascii) :
  spec.isdigit a = true -> spec.isdigit b = true -> spec.isdigit c = true ->
  spec.isdigit d = true -> spec.isdigit e = true -> spec.isdigit f = true ->
  spec.isdigit g = true -> spec.isdigit h = true -> spec.isdigit i = true ->
  spec.isdigit j = true -> spec.isdigit k = true -> spec.isdigit l = true ->
  spec.isdigit m = true -> spec.isdigit n = true ->
  spec.generated_name_shape
    ("projectile_data_"
     +:+ String a (String b (String c (String d (String e (String f
           (String g (String h EmptyString)))))))
     +:+ "_"
     +:+ String i (String j (String k (String l (String m (String n EmptyString)))))
     +:+ ".csv") = true.
Proof.
  intros Ha Hb Hc Hd He Hf Hg Hh Hi Hj Hk Hl Hm Hn.
  unfold spec.generated_name_shape, spec.timestamp_shape.
  cbv -[spec.isdigit].
  rewrite Ha, Hb, Hc, Hd, He, Hf, Hg, Hh, Hi, Hj, Hk, Hl, Hm, Hn.
  reflexivity.
Qed.

Lemma endswith_refl (s : string) : graph.endswith s s = true.
Proof. destruct s; cbn [graph.endswith]; rewrite String.eqb_refl; reflexivity. Qed.

Lemma endswith_append (s suffix : string) :
  graph.endswith (s +:+ suffix) suffix = true.
Proof.
  induction s as [|c s IH].
  - apply endswith_refl.
  - change (String c s +:+ suffix) with (String c (s +:+ suffix)).
    cbn [graph.endswith].
    destruct (String.eqb (String c (s +:+ suffix)) suffix); [reflexivity|exact IH].
Qed.

(** The calls a client makes after construction change neither the file
    name nor the header names of a logger. *)
Lemma perform_all_keeps (repr : R -> string) (cs : list call) (s : PhysicsLogger * World) :
  filename (fst (perform_all repr cs s)) = filename (fst s) /\
  headers (fst (perform_all repr cs s)) = headers (fst s).
Proof.
  revert s. induction cs as [|c cs IH]; intros s.
  - split; reflexivity.
  - cbn [perform_all fold_left]. fold (perform_all repr cs (perform repr c s)).
    destruct (IH (perform repr c s)) as [-> ->].
    destruct c; split; reflexivity.
Qed.

(** Logging appends, in call order. *)
Lemma perform_all_log (repr : R -> string) (ps : list data_point) (s : PhysicsLogger * World) :
  data (fst (perform_all repr (map Log ps) s)) = data (fst s) ++ ps.
Proof.
  revert s. induction ps as [|p ps IH]; intros s.
  - cbn. rewrite app_nil_r. reflexivity.
  - cbn [map perform_all fold_left].
    fold (perform_all repr (map Log ps) (perform repr (Log p) s)).
    rewrite IH. cbn [perform log_data fst data].
    rewrite <- app_assoc. reflexivity.
Qed.

Lemma last_cons_default {T : Type} (y : T) (ys : list T) (x : T) :
  List.last (y :: ys) x = List.last ys y.
Proof.
  revert y x. induction ys as [|r ys IH]; intros y x; [reflexivity|].
  change (List.last (y :: r :: ys) x) with (List.last (r :: ys) x).
  rewrite (IH r x). symmetry. apply (IH r y).
Qed.

Lemma last_map_time (rest : list data_point) (first : data_point) :
  time (List.last rest first) = List.last (map time rest) (time first).
Proof.
  induction rest as [|p [|q rest] IH]; try reflexivity.
  exact IH.
Qed.

Lemma minimum_nondecreasing (x : R) (xs : list R) :
  spec.nondecreasing x xs -> spec.minimum x xs = x.
Proof.
  revert x. induction xs as [|y ys IH]; intros x H; cbn [spec.minimum].
  - reflexivity.
  - destruct H as [Hxy Hys]. rewrite (IH y Hys). apply Rmin_left, Hxy.
Qed.

Lemma maximum_nondecreasing (x : R) (xs : list R) :
  spec.nondecreasing x xs -> spec.maximum x xs = List.last xs x /\ x <= List.last xs x.
Proof.
  revert x. induction xs as [|y ys IH]; intros x H; cbn [spec.maximum].
  - cbn. split; [reflexivity|lra].
  - destruct H as [Hxy Hys]. destruct (IH y Hys) as [Hmax Hle].
    assert (Hlast : List.last (y :: ys) x = List.last ys y)
      by apply last_cons_default.
    rewrite Hlast, Hmax. split; [apply Rmax_right|]; lra.
Qed.

(** C6, as the code has it. When no file name is supplied, and the clock
    reads a four-digit year, the recorder's file is named
    projectile_data_<YYYYMMDD_HHMMSS>.csv after the clock reading. A name
    the caller supplies to the recorder is used as it is, with no suffix
    added. The suffix .csv is appended when absent only to a name typed at
    the analysis prompt ([get_csv_filename_from_user]), after stripping
    white space. *)
Theorem C6_file_names (now : datetime) (w : World) :
  (1000 <= year now <= 9999)%N ->
  let generated := filename (fst (__init__ None now w)) in
  generated
  = "projectile_data_"
    +:+ spec.four_digits (year now) +:+ two_digits (month now) +:+ two_digits (day now)
    +:+ "_"
    +:+ two_digits (hour now) +:+ two_digits (minute now) +:+ two_digits (second now)
    +:+ ".csv" /\
  spec.generated_name_shape generated = true /\
  (forall name : string, filename (fst (__init__ (Some name) now w)) = name) /\
  (forall (typed : string) (rest : list string),
     exists name : string,
       graph.get_csv_filename_from_user None (typed :: rest) = inr (name, rest) /\
       graph.endswith name ".csv" = true /\
       (if graph.endswith (graph.strip typed) ".csv"
        then name = graph.strip typed
        else name = graph.strip typed +:+ ".csv")) /\
  (forall (latest answer typed : string) (rest : list string),
     latest <> ""%string ->
     graph.lower (graph.strip answer) <> "y"%string ->
     graph.lower (graph.strip answer) <> ""%string ->
     graph.get_csv_filename_from_user (Some latest) (answer :: typed :: rest)
     = graph.get_csv_filename_from_user None (typed :: rest)).
Proof.
  intros Hy generated.
  assert (Hname : generated
    = "projectile_data_"
      +:+ spec.four_digits (year now) +:+ two_digits (month now) +:+ two_digits (day now)
      +:+ "_"
      +:+ two_digits (hour now) +:+ two_digits (minute now) +:+ two_digits (second now)
      +:+ ".csv").
  { unfold generated, __init__. cbn [fst filename].
    rewrite strftime_timestamp, (decimal_four_digits _ Hy). reflexivity. }
  split; [exact Hname|].
  split.
  { rewrite Hname.
    exact (shape_of_digits _ _ _ _ _ _ _ _ _ _ _ _ _ _
             (isdigit_digit (year now / 1000)) (isdigit_digit (year now / 100))
             (isdigit_digit (year now / 10)) (isdigit_digit (year now))
             (isdigit_digit (month now / 10)) (isdigit_digit (month now))
             (isdigit_digit (day now / 10)) (isdigit_digit (day now))
             (isdigit_digit (hour now / 10)) (isdigit_digit (hour now))
             (isdigit_digit (minute now / 10)) (isdigit_digit (minute now))
             (isdigit_digit (second now / 10)) (isdigit_digit (second now))). }
  split; [intros name; reflexivity|].
  split.
  { intros typed rest. unfold graph.get_csv_filename_from_user, graph.input.
    destruct (graph.endswith (graph.strip typed) ".csv") eqn:Hends.
    - exists (graph.strip typed). repeat split. exact Hends.
    - exists (graph.strip typed +:+ ".csv"). repeat split. apply endswith_append. }
  intros latest answer typed rest Hlatest Hny Hne.
  unfold graph.get_csv_filename_from_user, graph.input.
  apply String.eqb_neq in Hny. apply String.eqb_neq in Hne.
  destruct latest as [|c latest]; [congruence|].
  rewrite Hny, Hne. reflexivity.
Qed.

Lemma C6_file_names_witness :
  let now := mkDatetime 2025 6 1 12 34 56 in
  let w := mkWorld ∅ [] in
  (1000 <= year now <= 9999)%N /\
  filename (fst (__init__ None now w)) = "projectile_data_20250601_123456.csv"%string /\
  spec.generated_name_shape (filename (fst (__init__ None now w))) = true.
Proof.
  cbv zeta.
  assert (Hy : (1000 <= year (mkDatetime 2025 6 1 12 34 56) <= 9999)%N)
    by (cbn [year]; lia).
  pose proof (C6_file_names (mkDatetime 2025 6 1 12 34 56) (mkWorld ∅ []) Hy)
    as (Hname & Hshape & _).
  split; [exact Hy|]. split; [exact Hname | exact Hshape].
Defined.

(** C6, as stated, fails for the recorder: constructed with the name
    "run1" it writes to "run1", which does not end in .csv. *)
Lemma C6_counterexample_supplied_name_kept :
  let s := __init__ (Some "run1"%string) (mkDatetime 2025 6 1 12 34 56) (mkWorld ∅ []) in
  filename (fst s) = "run1"%string /\
  graph.endswith (filename (fst s)) ".csv" = false /\
  files (snd s) !! "run1"%string = Some (writerow HEADERS) /\
  files (snd s) !! "run1.csv"%string = None.
Proof.
  cbv zeta. split; [reflexivity|]. split; [reflexivity|].
  cbn [__init__ snd print open_w_write files headers].
  split.
  - apply lookup_insert_eq.
  - rewrite lookup_insert_ne by discriminate. apply lookup_empty.
Qed.

(** C7, as the code has it. On finalize the recorder reports the count of
    entries recorded, and, when there is at least one, the time of the
    first entry recorded and the time of the last entry recorded. These
    are the minimum and the maximum time when the entries were recorded in
    non-decreasing time order; the recorder neither enforces nor restores
    that order. With no entry, only the count (0) is reported. *)
Theorem C7_save_final_first_and_last
    (repr : R -> string) (name : option string) (now : datetime) (w w' : World)
    (first : data_point) (rest : list data_point) :
  let entries := first :: rest in
  let s := perform_all repr (map Log entries) (__init__ name now w) in
  let s0 := __init__ name now w in
  data (fst s) = entries /\
  get_data_count (fst s) = length entries /\
  stdout (save_final (fst s) w')
  = stdout w' ++ [Complete (length entries) (filename (fst s))]
              ++ [TimeRange (time first) (time (List.last entries first))] /\
  (spec.nondecreasing (time first) (map time rest) ->
   time first = spec.minimum (time first) (map time rest) /\
   time (List.last entries first) = spec.maximum (time first) (map time rest)) /\
  stdout (save_final (fst s0) w') = stdout w' ++ [Complete 0 (filename (fst s0))].
Proof.
  intros entries s s0.
  assert (Hdata : data (fst s) = entries).
  { unfold s. rewrite perform_all_log. reflexivity. }
  split; [exact Hdata|].
  split; [unfold get_data_count; rewrite Hdata; reflexivity|].
  split.
  { unfold save_final. rewrite Hdata. unfold entries at 1.
    cbn [print stdout]. rewrite <- app_assoc. reflexivity. }
  split; [|reflexivity].
  intros Hsorted. split.
  - symmetry. apply minimum_nondecreasing, Hsorted.
  - destruct (maximum_nondecreasing _ _ Hsorted) as [-> _].
    unfold entries. rewrite last_cons_default. apply last_map_time.
Qed.

(** C7, as stated, fails when times are not recorded in increasing order:
    after the entries at times 2 and 1, the recorder reports the range
    from 2 to 1, while the minimum is 1 and the maximum is 2. *)
Lemma C7_counterexample_unordered_times :
  let entries := [mkPoint 2 0 0 0 0; mkPoint 1 0 0 0 0] in
  let s := perform_all (fun _ => "0"%string) (map Log entries)
             (__init__ (Some "run.csv"%string) (mkDatetime 2025 6 1 12 34 56)
                (mkWorld ∅ [])) in
  stdout (save_final (fst s) (mkWorld ∅ []))
  = [Complete 2 "run.csv"; TimeRange 2 1] /\
  spec.minimum 2 [1] = 1 /\
  spec.maximum 2 [1] = 2 /\
  TimeRange 2 1 <> TimeRange (spec.minimum 2 [1]) (spec.maximum 2 [1]).
Proof.
  cbv zeta.
  assert (Hmin : spec.minimum 2 [1] = 1) by (cbn; apply Rmin_right; lra).
  assert (Hmax : spec.maximum 2 [1] = 2) by (cbn; apply Rmax_left; lra).
  split; [reflexivity|]. split; [exact Hmin|]. split; [exact Hmax|].
  rewrite Hmin, Hmax. intros H. injection H as H1 H2. lra.
Qed.

(** C10. Constructing the recorder opens its file for writing: whatever
    the file held before, it then holds exactly the header row
    Time,X_Position,Y_Position,Velocity_X,Velocity_Y with its line
    terminator, the other files are untouched, and the list of entries is
    empty. The same holds after [clear_data], whatever was logged, cleared
    or summarised in between. *)
Theorem C10_construction_and_clear_truncate
    (repr : R -> string) (name : option string) (now : datetime) (w : World)
    (calls : list call) :
  let header_row := ("Time,X_Position,Y_Position,Velocity_X,Velocity_Y" +:+ CRLF)%string in
  let s0 := __init__ name now w in
  let s1 := perform_all repr calls s0 in
  let s2 := clear_data (fst s1) (snd s1) in
  files (snd s0) !! filename (fst s0) = Some header_row /\
  data (fst s0) = [] /\
  (forall other : string,
     other <> filename (fst s0) -> files (snd s0) !! other = files w !! other) /\
  filename (fst s2) = filename (fst s0) /\
  files (snd s2) !! filename (fst s0) = Some header_row /\
  data (fst s2) = [] /\
  (forall other : string,
     other <> filename (fst s0) ->
     files (snd s2) !! other = files (snd s1) !! other).
Proof.
  intros header_row s0 s1 s2.
  destruct (perform_all_keeps repr calls s0) as [Hname Hheaders].
  fold s1 in Hname, Hheaders.
  split; [apply lookup_insert_eq|].
  split; [reflexivity|].
  split.
  { intros other Hother. cbn [s0 __init__ snd print open_w_write files].
    apply lookup_insert_ne. cbn [s0 __init__ fst filename] in Hother. congruence. }
  split; [exact Hname|].
  split.
  { cbn [s2 clear_data snd open_w_write files]. rewrite Hname, Hheaders.
    apply lookup_insert_eq. }
  split; [reflexivity|].
  intros other Hother. cbn [s2 clear_data snd open_w_write files].
  apply lookup_insert_ne. rewrite <- Hname in Hother.
  intros E. apply Hother. symmetry. exact E.
Qed.

End Recorder.

(* ------------------------------------------------------------------ *)
(** ** More on the game loop (Renderer.py, lines 55-78) *)

Section GameLoop.
Import Renderer.

Lemma guard_false_inv (b : Ball) :
  physics_guard b = false -> GROUND_Y <= ball_bottom_y b /\ vx b = 0 /\ vy b = 0.
Proof.
  unfold physics_guard. intros H.
  apply orb_false_elim in H as [Hy H]. apply orb_false_elim in H as [Hvx Hvy].
  apply Rltb_false in Hy. apply Rneqb_false in Hvx. apply Rneqb_false in Hvy.
  repeat split; assumption.
Qed.

Lemma update_cases (c : config.t) (dt : R) (b : Ball) :
  (physics_guard b = false /\ update_physics c dt b = b) \/
  (physics_guard b = true /\ ball_bottom_y (integrate c dt b) < GROUND_Y /\
   update_physics c dt b = integrate c dt b) \/
  (physics_guard b = true /\ GROUND_Y <= ball_bottom_y (integrate c dt b) /\
   update_physics c dt b = mkBall (ball_bottom_x (integrate c dt b)) GROUND_Y 0 0).
Proof.
  unfold update_physics. destruct (physics_guard b) eqn:Hg.
  - right. unfold ground_check.
    destruct (Rgeb (ball_bottom_y (integrate c dt b)) GROUND_Y) eqn:Hc.
    + right. apply Rgeb_true in Hc. repeat split; assumption.
    + left. apply Rgeb_false in Hc. repeat split; assumption.
  - left. split; reflexivity.
Qed.

(** A ball that is on or above the ground line is never put under it: the
    height in meters stays non-negative over any frames, whatever their
    time increments (also zero or negative ones). *)
Theorem X_never_below_ground (c : config.t) (frames : list R) (b : Ball) :
  ball_bottom_y b <= GROUND_Y ->
  ball_bottom_y (game_loop c frames b) <= GROUND_Y /\
  0 <= world_y (game_loop c frames b).
Proof.
  intros Hb.
  assert (H : ball_bottom_y (game_loop c frames b) <= GROUND_Y).
  { revert b Hb. induction frames as [|dt rest IH]; intros b Hb; cbn [game_loop].
    - exact Hb.
    - apply IH.
      destruct (update_cases c dt b) as [[_ ->]|[(_ & Hlt & ->)|(_ & _ & ->)]];
        cbn [ball_bottom_y]; lra. }
  split; [exact H|].
  unfold world_y. rewrite PIXELS_PER_METER_value. lra.
Qed.

Lemma X_never_below_ground_witness :
  ball_bottom_y (mkBall 120 499 3 (-6)) <= GROUND_Y /\
  0 <= world_y (game_loop config.source [/ 2; / 60; -1] (mkBall 120 499 3 (-6))).
Proof.
  assert (H : ball_bottom_y (mkBall 120 499 3 (-6)) <= GROUND_Y)
    by (cbn [ball_bottom_y]; rewrite GROUND_Y_value; lra).
  split; [exact H|].
  exact (proj2 (X_never_below_ground config.source [/ 2; / 60; -1] _ H)).
Defined.

(** A ball that starts under the ground line with zero velocity is left
    there: the guard is false, so no frame moves it, and it is never
    brought up to the ground line. *)
Theorem X_stuck_below_ground (c : config.t) (frames : list R) (b : Ball) :
  GROUND_Y < ball_bottom_y b -> vx b = 0 -> vy b = 0 ->
  game_loop c frames b = b /\
  integration_steps c frames b = 0%nat /\
  world_y (game_loop c frames b) < 0.
Proof.
  intros Hy Hvx Hvy.
  assert (Hg : physics_guard b = false).
  { unfold physics_guard. rewrite Hvx, Hvy.
    assert (Rltb (ball_bottom_y b) GROUND_Y = false) as -> by (apply Rltb_false; lra).
    assert (Rneqb 0 0 = false) as -> by (apply Rneqb_false; reflexivity).
    reflexivity. }
  assert (Hloop : game_loop c frames b = b /\ integration_steps c frames b = 0%nat).
  { induction frames as [|dt rest [IH1 IH2]]; cbn [game_loop integration_steps].
    - split; reflexivity.
    - unfold update_physics. rewrite Hg. split; [exact IH1 | exact IH2]. }
  destruct Hloop as [Hloop Hsteps]. rewrite Hloop.
  split; [reflexivity|]. split; [exact Hsteps|].
  unfold world_y. rewrite PIXELS_PER_METER_value.
  apply (Rmult_lt_reg_r 60); lra.
Qed.

Lemma X_stuck_below_ground_witness :
  let c := config.mk (-1) 45 0 (-9.81) in
  GROUND_Y < ball_bottom_y (initial c) /\ vx (initial c) = 0 /\ vy (initial c) = 0 /\
  game_loop c [/ 60; / 60] (initial c) = initial c.
Proof.
  cbv zeta.
  assert (Hy : GROUND_Y < ball_bottom_y (initial (config.mk (-1) 45 0 (-9.81)))).
  { unfold initial; cbn [ball_bottom_y config.InitialHeight].
    rewrite PIXELS_PER_METER_value. lra. }
  assert (Hvx : vx (initial (config.mk (-1) 45 0 (-9.81))) = 0).
  { unfold initial, config.initialVelocityX; cbn [vx config.Velocity]. lra. }
  assert (Hvy : vy (initial (config.mk (-1) 45 0 (-9.81))) = 0).
  { unfold initial, config.initialVelocityY; cbn [vy config.Velocity]. lra. }
  split; [exact Hy|]. split; [exact Hvx|]. split; [exact Hvy|].
  exact (proj1 (X_stuck_below_ground _ [/ 60; / 60] _ Hy Hvx Hvy)).
Defined.

(** A frame of zero length is not a no-op on the ground line: a ball that
    sits on the ground line with some velocity (a launch from height 0) is
    stopped by it, and stays where it is over all later frames. *)
Theorem X_zero_frame_cancels_launch (c : config.t) (frames : list R) (b : Ball) :
  ball_bottom_y b = GROUND_Y -> Airborne b ->
  update_physics c 0 b = mkBall (ball_bottom_x b) GROUND_Y 0 0 /\
  game_loop c (0 :: frames) b = mkBall (ball_bottom_x b) GROUND_Y 0 0.
Proof.
  intros Hy Hair.
  assert (Hstep : update_physics c 0 b = mkBall (ball_bottom_x b) GROUND_Y 0 0).
  { destruct (update_cases c 0 b) as [[Hg _]|[(_ & Hlt & _)|(_ & _ & ->)]].
    - unfold Airborne in Hair. congruence.
    - unfold integrate in Hlt; cbn [ball_bottom_y] in Hlt. lra.
    - unfold integrate; cbn [ball_bottom_x]. f_equal. lra. }
  split; [exact Hstep|].
  cbn [game_loop]. rewrite Hstep.
  apply Grounded_game_loop. repeat split.
Qed.

Lemma initial_source_Airborne : Airborne (initial config.source).
Proof.
  unfold Airborne, physics_guard.
  assert (Rneqb (vx (initial config.source)) 0 = true) as ->.
  { apply Rneqb_true. unfold initial, config.initialVelocityX, config.source;
      cbn [vx config.Theta config.Velocity].
    rewrite radians_45, cos_PI4. pose proof nine_over_sqrt2. lra. }
  apply orb_true_r.
Qed.

Lemma X_zero_frame_cancels_launch_witness :
  ball_bottom_y (initial config.source) = GROUND_Y /\
  Airborne (initial config.source) /\
  game_loop config.source [0; / 60; / 60] (initial config.source)
  = mkBall (ball_bottom_x (initial config.source)) GROUND_Y 0 0.
Proof.
  assert (Hy : ball_bottom_y (initial config.source) = GROUND_Y).
  { unfold initial, config.source; cbn [ball_bottom_y config.InitialHeight]. lra. }
  split; [exact Hy|]. split; [exact initial_source_Airborne|].
  exact (proj2 (X_zero_frame_cancels_launch config.source [/ 60; / 60] _ Hy
                  initial_source_Airborne)).
Defined.

(** While the ball still moves horizontally it has never touched the
    ground, and its state is the closed form of the integration: the
    horizontal velocity is the initial one, the vertical velocity is the
    initial one plus gravity times the elapsed time, and x has advanced by
    the horizontal velocity times the elapsed time. *)
Theorem X_closed_form_while_moving (c : config.t) (frames : list R) (b : Ball) :
  vx (game_loop c frames b) <> 0 ->
  vx (game_loop c frames b) = vx b /\
  vy (game_loop c frames b) = vy b + config.Gravity c * run.elapsed frames /\
  world_x (game_loop c frames b) = world_x b + vx b * run.elapsed frames /\
  integration_steps c frames b = length frames.
Proof.
  revert b. induction frames as [|dt rest IH]; intros b Hmove;
    cbn [game_loop integration_steps run.elapsed fold_right length] in *.
  - repeat split; lra.
  - fold (run.elapsed rest).
    destruct (IH _ Hmove) as (Hvx & Hvy & Hx & Hsteps).
    rewrite Hvx in Hmove.
    destruct (update_cases c dt b) as [[Hg Hu]|[(Hg & Hlt & Hu)|(_ & _ & Hu)]].
    + exfalso. rewrite Hu in Hmove.
      destruct (guard_false_inv b Hg) as (_ & H0 & _). congruence.
    + rewrite Hvx, Hvy, Hx, Hsteps, Hu, Hg. unfold world_x, integrate;
        cbn [vx vy ball_bottom_x]. rewrite PIXELS_PER_METER_value.
      repeat split; lra.
    + exfalso. rewrite Hu in Hmove. cbn [vx] in Hmove. congruence.
Qed.

Lemma X_closed_form_while_moving_witness :
  vx (game_loop config.source [/ 10] (mkBall 0 440 3 4)) <> 0 /\
  vy (game_loop config.source [/ 10] (mkBall 0 440 3 4))
  = 4 + -9.81 * run.elapsed [/ 10].
Proof.
  assert (Hstep : update_physics config.source (/ 10) (mkBall 0 440 3 4)
                  = integrate config.source (/ 10) (mkBall 0 440 3 4)).
  { destruct (update_cases config.source (/ 10) (mkBall 0 440 3 4))
      as [[Hg _]|[(_ & _ & Hu)|(_ & Hge & _)]].
    - exfalso. destruct (guard_false_inv _ Hg) as (H & _).
      cbn [ball_bottom_y] in H. rewrite GROUND_Y_value in H. lra.
    - exact Hu.
    - exfalso. unfold integrate in Hge; cbn [ball_bottom_y vy] in Hge.
      rewrite GROUND_Y_value, PIXELS_PER_METER_value in Hge.
      cbn [config.Gravity config.source] in Hge. lra. }
  assert (Hmove : vx (game_loop config.source [/ 10] (mkBall 0 440 3 4)) <> 0).
  { cbn [game_loop]. rewrite Hstep. cbn [integrate vx]. lra. }
  split; [exact Hmove|].
  exact (proj1 (proj2 (X_closed_form_while_moving config.source [/ 10] _ Hmove))).
Defined.

End GameLoop.

(* ------------------------------------------------------------------ *)
(** ** More on the configuration (config.py) *)

Section LaunchSpeed.

(** The two components recompose the launch speed: their squares add up to
    the square of [Velocity], for every angle. A launch at 0 degrees is
    horizontal. *)
Theorem X_components_recompose_speed (c : config.t) :
  config.initialVelocityX c ^ 2 + config.initialVelocityY c ^ 2
  = config.Velocity c ^ 2 /\
  (config.Theta c = 0 ->
   config.initialVelocityX c = config.Velocity c /\ config.initialVelocityY c = 0).
Proof.
  unfold config.initialVelocityX, config.initialVelocityY.
  split.
  - pose proof (sin2_cos2 (config.radians (config.Theta c))) as H.
    unfold Rsqr in H.
    replace ((cos (config.radians (config.Theta c)) * config.Velocity c) ^ 2
             + (sin (config.radians (config.Theta c)) * config.Velocity c) ^ 2)
      with ((sin (config.radians (config.Theta c)) * sin (config.radians (config.Theta c))
             + cos (config.radians (config.Theta c)) * cos (config.radians (config.Theta c)))
            * config.Velocity c ^ 2) by ring.
    rewrite H. ring.
  - intros ->. unfold config.radians.
    replace (0 * (PI / 180)) with 0 by lra.
    rewrite cos_0, sin_0. split; lra.
Qed.

End LaunchSpeed.

(* ------------------------------------------------------------------ *)
(** ** More on the recorder (logger.py) *)

Section RecorderFile.
Import logger.

Lemma append_cons (c : ascii) (s t : string) :
  String c s +:+ t = String c (s +:+ t).
Proof. reflexivity. Qed.

Lemma append_assoc (s t u : string) : (s +:+ t) +:+ u = s +:+ (t +:+ u).
Proof.
  induction s as [|c s IH]; [reflexivity|].
  rewrite !append_cons, IH. reflexivity.
Qed.

Lemma append_nil_r (s : string) : s +:+ "" = s.
Proof.
  induction s as [|c s IH]; [reflexivity|]. rewrite append_cons, IH. reflexivity.
Qed.

Lemma rows_text_snoc (repr : R -> string) (ps : list data_point) (p : data_point) :
  run.rows_text repr (ps ++ [p])
  = run.rows_text repr ps +:+ writerow (map repr (cells p)).
Proof.
  induction ps as [|q ps IH]; cbn [app run.rows_text].
  - rewrite append_nil_r. reflexivity.
  - rewrite IH, append_assoc. reflexivity.
Qed.

(** What one call keeps: the header names, and the file mirroring the
    entries held in memory. *)
Lemma perform_mirror (repr : R -> string) (c : call) (s : PhysicsLogger * World) :
  headers (fst s) = HEADERS ->
  files (snd s) !! filename (fst s)
  = Some (writerow HEADERS +:+ run.rows_text repr (data (fst s))) ->
  headers (fst (perform repr c s)) = HEADERS /\
  filename (fst (perform repr c s)) = filename (fst s) /\
  files (snd (perform repr c s)) !! filename (fst s)
  = Some (writerow HEADERS +:+ run.rows_text repr (data (fst (perform repr c s)))) /\
  (forall other : string, other <> filename (fst s) ->
     files (snd (perform repr c s)) !! other = files (snd s) !! other).
Proof.
  intros Hh Hf. destruct s as [self w]. cbn [fst snd] in *.
  destruct c as [p| |]; cbn [perform fst snd].
  - unfold log_data; cbn [fst snd filename data headers open_a_write files].
    split; [exact Hh|]. split; [reflexivity|]. split.
    + rewrite lookup_insert_eq, Hf. cbv [default from_option Datatypes.id].
      rewrite rows_text_snoc, append_assoc. reflexivity.
    + intros other Hother. apply lookup_insert_ne. congruence.
  - unfold clear_data; cbn [fst snd filename data headers open_w_write files].
    split; [exact Hh|]. split; [reflexivity|]. split.
    + rewrite lookup_insert_eq, Hh. cbn [run.rows_text].
      rewrite append_nil_r. reflexivity.
    + intros other Hother. apply lookup_insert_ne. congruence.
  - unfold save_final. split; [exact Hh|]. split; [reflexivity|].
    split; [destruct (data self); exact Hf|].
    intros other _. destruct (data self); reflexivity.
Qed.

(** The file mirrors the memory. After construction and any sequence of
    [log_data], [clear_data] and [save_final] calls, the recorder's file
    holds the header row followed by exactly one row per entry currently
    held in [self.data], in the order logged, and no other file has been
    touched since construction. *)
Theorem X_file_mirrors_data
    (repr : R -> string) (name : option string) (now : datetime) (w : World)
    (calls : list call) :
  let s0 := __init__ name now w in
  let s := perform_all repr calls s0 in
  files (snd s) !! filename (fst s)
  = Some (writerow HEADERS +:+ run.rows_text repr (data (fst s))) /\
  (forall other : string, other <> filename (fst s) ->
     files (snd s) !! other = files w !! other).
Proof.
  intros s0 s.
  assert (Hinv : forall (cs : list call) (t : PhysicsLogger * World),
            headers (fst t) = HEADERS ->
            files (snd t) !! filename (fst t)
            = Some (writerow HEADERS +:+ run.rows_text repr (data (fst t))) ->
            filename (fst (perform_all repr cs t)) = filename (fst t) /\
            files (snd (perform_all repr cs t)) !! filename (fst t)
            = Some (writerow HEADERS
                    +:+ run.rows_text repr (data (fst (perform_all repr cs t)))) /\
            (forall other : string, other <> filename (fst t) ->
               files (snd (perform_all repr cs t)) !! other = files (snd t) !! other)).
  { induction cs as [|c cs IH]; intros t Hh Hf.
    - split; [reflexivity|]. split; [exact Hf|]. intros; reflexivity.
    - cbn [perform_all fold_left]. fold (perform_all repr cs (perform repr c t)).
      destruct (perform_mirror repr c t Hh Hf) as (Hh' & Hn' & Hf' & Ho').
      rewrite <- Hn' in Hf'.
      destruct (IH _ Hh' Hf') as (Hn'' & Hf'' & Ho'').
      rewrite Hn' in Hn'', Hf'', Ho''.
      split; [exact Hn''|]. split; [exact Hf''|].
      intros other Hother. rewrite (Ho'' other Hother). apply Ho', Hother. }
  assert (H0 : files (snd s0) !! filename (fst s0)
               = Some (writerow HEADERS +:+ run.rows_text repr (data (fst s0)))).
  { cbn [s0 __init__ fst snd print open_w_write files filename data headers
         run.rows_text].
    rewrite lookup_insert_eq, append_nil_r. reflexivity. }
  destruct (Hinv calls s0 eq_refl H0) as (Hn & Hf & Ho). fold s in Hn, Hf, Ho.
  rewrite Hn. split; [exact Hf|].
  intros other Hother. rewrite (Ho other Hother).
  cbn [s0 __init__ snd print open_w_write files].
  apply lookup_insert_ne. cbn [s0 __init__ fst filename] in Hother. congruence.
Qed.

(** Two recorders on one file name. Constructing a second recorder with
    the name of a first one empties the file down to the header row: the
    rows the first one logged are gone from the file, while the first one
    still counts them as logged. *)
Theorem X_second_recorder_truncates
    (repr : R -> string) (name : string) (now now' : datetime) (w : World)
    (entries : list data_point) :
  let s1 := perform_all repr (map Log entries) (__init__ (Some name) now w) in
  let s2 := __init__ (Some name) now' (snd s1) in
  files (snd s1) !! name = Some (writerow HEADERS +:+ run.rows_text repr entries) /\
  files (snd s2) !! name = Some (writerow HEADERS) /\
  get_data_count (fst s1) = length entries /\
  get_data_count (fst s2) = 0%nat.
Proof.
  intros s1 s2.
  split.
  { pose proof (perform_all_log repr entries (__init__ (Some name) now w)) as Hd.
    assert (Hinit : filename (fst (perform_all repr (map Log entries)
                                     (__init__ (Some name) now w))) = name)
      by (rewrite (proj1 (perform_all_keeps repr _ _)); reflexivity).
    assert (Hmirror : forall (ps : list data_point) (t : PhysicsLogger * World),
              files (snd t) !! filename (fst t)
              = Some (writerow HEADERS +:+ run.rows_text repr (data (fst t))) ->
              files (snd (perform_all repr (map Log ps) t)) !! filename (fst t)
              = Some (writerow HEADERS +:+ run.rows_text repr (data (fst t) ++ ps))).
    { induction ps as [|p ps IH]; intros t Ht.
      - cbn. rewrite app_nil_r. exact Ht.
      - cbn [map perform_all fold_left].
        fold (perform_all repr (map Log ps) (perform repr (Log p) t)).
        replace (data (fst t) ++ p :: ps) with ((data (fst t) ++ [p]) ++ ps)
          by (rewrite <- app_assoc; reflexivity).
        apply (IH (perform repr (Log p) t)).
        cbn [perform log_data fst snd filename data open_a_write files].
        rewrite lookup_insert_eq, Ht. cbv [default from_option Datatypes.id].
        rewrite rows_text_snoc, append_assoc. reflexivity. }
    unfold s1. apply (Hmirror entries (__init__ (Some name) now w)).
    cbn [__init__ fst snd print open_w_write files filename data headers
         run.rows_text].
    rewrite lookup_insert_eq, append_nil_r. reflexivity. }
  split; [apply lookup_insert_eq|].
  split; [|reflexivity].
  unfold get_data_count, s1. rewrite perform_all_log. reflexivity.
Qed.

End RecorderFile.

(* ------------------------------------------------------------------ *)
(** ** The generated file name determines the clock reading *)

(** Linear arithmetic with quotients and remainders by constants. *)
Ltac euclid_lia := zify; Z.to_euclidean_division_equations; lia.

Section GeneratedNames.
Import logger.

Lemma digit_inj (a b : N) : digit a = digit b -> (a mod 10 = b mod 10)%N.
Proof.
  unfold digit. intros H. apply (f_equal N_of_ascii) in H.
  rewrite !N_ascii_embedding in H by euclid_lia. lia.
Qed.

Lemma same_quotient_and_remainder (a b : N) :
  (a / 10 = b / 10)%N -> (a mod 10 = b mod 10)%N -> a = b.
Proof. intros. euclid_lia. Qed.

Lemma mod_10_small (a : N) : (a < 10)%N -> (a mod 10 = a)%N.
Proof. intros. euclid_lia. Qed.

Lemma thousands_small (a : N) : (a <= 9999)%N -> (a / 1000 < 10)%N.
Proof. intros. euclid_lia. Qed.

Lemma hundreds_over_ten (a : N) : (a / 100 / 10 = a / 1000)%N.
Proof. euclid_lia. Qed.

Lemma tens_over_ten (a : N) : (a / 10 / 10 = a / 100)%N.
Proof. euclid_lia. Qed.

Lemma two_digits_inj (a b : N) :
  (a < 100)%N -> (b < 100)%N -> two_digits a = two_digits b -> a = b.
Proof.
  intros Ha Hb H. unfold two_digits in H. injection H as H1 H0.
  apply digit_inj in H1. apply digit_inj in H0. euclid_lia.
Qed.

Lemma four_digits_inj (a b : N) :
  (a <= 9999)%N -> (b <= 9999)%N -> spec.four_digits a = spec.four_digits b -> a = b.
Proof.
  intros Ha Hb H. unfold spec.four_digits in H. injection H as H3 H2 H1 H0.
  apply digit_inj in H3. apply digit_inj in H2.
  apply digit_inj in H1. apply digit_inj in H0.
  assert (E3 : (a / 1000 = b / 1000)%N).
  { rewrite <- (mod_10_small (a / 1000)), <- (mod_10_small (b / 1000));
      [exact H3 | apply thousands_small, Hb | apply thousands_small, Ha]. }
  assert (E2 : (a / 100 = b / 100)%N).
  { apply same_quotient_and_remainder; [|exact H2].
    rewrite !hundreds_over_ten. exact E3. }
  assert (E1 : (a / 10 = b / 10)%N).
  { apply same_quotient_and_remainder; [|exact H1].
    rewrite !tens_over_ten. exact E2. }
  apply same_quotient_and_remainder; assumption.
Qed.

Lemma generated_name (now : datetime) (w : World) :
  (1000 <= year now <= 9999)%N ->
  filename (fst (__init__ None now w))
  = "projectile_data_"
    +:+ spec.four_digits (year now) +:+ two_digits (month now) +:+ two_digits (day now)
    +:+ "_"
    +:+ two_digits (hour now) +:+ two_digits (minute now) +:+ two_digits (second now)
    +:+ ".csv".
Proof.
  intros Hy. unfold __init__. cbn [fst filename].
  rewrite strftime_timestamp, (decimal_four_digits _ Hy). reflexivity.
Qed.

(** Auto-generated names tell clock readings apart, to the second: two
    recorders constructed without a file name get the same name only if
    their clock readings agree in all six fields. (So they share, and the
    second truncates, a file exactly when constructed within the same
    second.) *)
Theorem X_generated_name_determines_clock (d1 d2 : datetime) (w1 w2 : World) :
  run.printable d1 -> run.printable d2 ->
  filename (fst (__init__ None d1 w1)) = filename (fst (__init__ None d2 w2)) ->
  d1 = d2.
Proof.
  intros (Hy1 & Hm1 & Hd1 & HH1 & HM1 & HS1) (Hy2 & Hm2 & Hd2 & HH2 & HM2 & HS2) H.
  rewrite (generated_name d1 w1 Hy1), (generated_name d2 w2 Hy2) in H.
  destruct d1 as [y1 m1 dd1 h1 mi1 s1], d2 as [y2 m2 dd2 h2 mi2 s2].
  cbn [year month day hour minute second] in *.
  assert (E : spec.four_digits y1 = spec.four_digits y2 /\
              two_digits m1 = two_digits m2 /\ two_digits dd1 = two_digits dd2 /\
              two_digits h1 = two_digits h2 /\ two_digits mi1 = two_digits mi2 /\
              two_digits s1 = two_digits s2).
  { unfold spec.four_digits, two_digits in *.
    cbv [String.append] in H.
    injection H as -> -> -> -> -> -> -> -> -> -> -> -> -> ->.
    repeat split; reflexivity. }
  destruct E as (Ey & Em & Ed & Eh & Emi & Es).
  apply four_digits_inj in Ey; [|lia|lia].
  apply two_digits_inj in Em, Ed, Eh, Emi, Es; try assumption.
  subst. reflexivity.
Qed.

Lemma X_generated_name_determines_clock_witness :
  let d := mkDatetime 2025 6 1 12 34 56 in
  run.printable d /\
  filename (fst (__init__ None d (mkWorld ∅ [])))
  = filename (fst (__init__ None d (mkWorld {[ "old.csv"%string := "x"%string ]} []))) /\
  d = d.
Proof.
  cbv zeta.
  assert (Hp : run.printable (mkDatetime 2025 6 1 12 34 56))
    by (unfold run.printable; cbn [year month day hour minute second]; lia).
  assert (Hn : filename (fst (__init__ None (mkDatetime 2025 6 1 12 34 56) (mkWorld ∅ [])))
               = filename (fst (__init__ None (mkDatetime 2025 6 1 12 34 56)
                                  (mkWorld {[ "old.csv"%string := "x"%string ]} []))))
    by reflexivity.
  split; [exact Hp|]. split; [exact Hn|].
  exact (X_generated_name_determines_clock _ _ _ _ Hp Hp Hn).
Defined.

End GeneratedNames.

(* ------------------------------------------------------------------ *)
(** ** More on the analysis (graph.py) *)

Section Metrics.
Import graph.

(** The kinetic energy is never negative for a non-negative mass; with the
    default mass it is zero exactly when both velocity components are
    zero, and doubling both components quadruples it. *)
Theorem X_kinetic_energy_sign (u v : R) :
  0 <= calculate_kinetic_energy u v None /\
  (calculate_kinetic_energy u v None = 0 <-> u = 0 /\ v = 0) /\
  calculate_kinetic_energy (2 * u) (2 * v) None = 4 * calculate_kinetic_energy u v None /\
  (forall m : R, 0 <= m -> 0 <= calculate_kinetic_energy u v (Some m)).
Proof.
  unfold calculate_kinetic_energy; cbv [default from_option Datatypes.id].
  split; [nra|]. split; [split; [intros H; split; nra | intros [-> ->]; lra]|].
  split; [ring|]. intros m Hm. nra.
Qed.

(** The displacement is a distance: never negative, zero exactly at the
    initial position, the same in both directions, and along one axis the
    absolute difference. *)
Theorem X_displacement_is_distance (x y x0 y0 : R) :
  0 <= calculate_displacement x y x0 y0 /\
  (calculate_displacement x y x0 y0 = 0 <-> x = x0 /\ y = y0) /\
  calculate_displacement x y x0 y0 = calculate_displacement x0 y0 x y /\
  calculate_displacement x y0 x0 y0 = Rabs (x - x0).
Proof.
  unfold calculate_displacement.
  assert (Hpos : 0 <= (x - x0) ^ 2 + (y - y0) ^ 2).
  { pose proof (pow2_ge_0 (x - x0)). pose proof (pow2_ge_0 (y - y0)). lra. }
  split; [apply sqrt_pos|].
  split.
  { split.
    - intros H. apply sqrt_eq_0 in H; [|exact Hpos].
      rewrite <- !Rsqr_pow2 in H. apply Rplus_sqr_eq_0 in H as [H1 H2].
      split; lra.
    - intros [-> ->]. replace ((x0 - x0) ^ 2 + (y0 - y0) ^ 2) with 0 by ring.
      apply sqrt_0. }
  split.
  { f_equal. ring. }
  replace ((x - x0) ^ 2 + (y0 - y0) ^ 2) with (Rsqr (x - x0)) by (unfold Rsqr; ring).
  apply sqrt_Rsqr_abs.
Qed.

Lemma fold_Rmax_spec (rest : list R) (v : R) :
  fold_left Rmax rest v ∈ v :: rest /\
  forall x : R, x ∈ v :: rest -> x <= fold_left Rmax rest v.
Proof.
  revert v. induction rest as [|y rest IH]; intros v; cbn [fold_left].
  - split; [constructor|]. intros x Hx. apply list_elem_of_singleton in Hx. lra.
  - destruct (IH (Rmax v y)) as [Hin Hub]. split.
    + apply elem_of_cons in Hin as [Hin|Hin].
      * rewrite Hin. unfold Rmax. destruct (Rle_dec v y).
        -- apply list_elem_of_further. constructor.
        -- constructor.
      * do 2 apply list_elem_of_further. exact Hin.
    + intros x Hx.
      assert (Hv : v <= fold_left Rmax rest (Rmax v y)).
      { apply Rle_trans with (Rmax v y); [apply Rmax_l | apply Hub; constructor]. }
      assert (Hy : y <= fold_left Rmax rest (Rmax v y)).
      { apply Rle_trans with (Rmax v y); [apply Rmax_r | apply Hub; constructor]. }
      apply elem_of_cons in Hx as [->|Hx]; [exact Hv|].
      apply elem_of_cons in Hx as [->|Hx]; [exact Hy|].
      apply Hub. apply list_elem_of_further. exact Hx.
Qed.

Lemma fold_Rmin_spec (rest : list R) (v : R) :
  fold_left Rmin rest v ∈ v :: rest /\
  forall x : R, x ∈ v :: rest -> fold_left Rmin rest v <= x.
Proof.
  revert v. induction rest as [|y rest IH]; intros v; cbn [fold_left].
  - split; [constructor|]. intros x Hx. apply list_elem_of_singleton in Hx. lra.
  - destruct (IH (Rmin v y)) as [Hin Hlb]. split.
    + apply elem_of_cons in Hin as [Hin|Hin].
      * rewrite Hin. unfold Rmin. destruct (Rle_dec v y).
        -- constructor.
        -- apply list_elem_of_further. constructor.
      * do 2 apply list_elem_of_further. exact Hin.
    + intros x Hx.
      assert (Hv : fold_left Rmin rest (Rmin v y) <= v).
      { apply Rle_trans with (Rmin v y); [apply Hlb; constructor | apply Rmin_l]. }
      assert (Hy : fold_left Rmin rest (Rmin v y) <= y).
      { apply Rle_trans with (Rmin v y); [apply Hlb; constructor | apply Rmin_r]. }
      apply elem_of_cons in Hx as [->|Hx]; [exact Hv|].
      apply elem_of_cons in Hx as [->|Hx]; [exact Hy|].
      apply Hlb. apply list_elem_of_further. exact Hx.
Qed.

End Metrics.

Section Summary.
Import graph.

(** The summary of a non-empty trajectory. [display_summary_statistics]
    returns; the number of data points it prints is the number of samples,
    the maximum height it prints is one of the recorded heights and is at
    least every recorded height, and the range it prints is not negative.
    On an empty trajectory it prints the banner and raises IndexError at
    [time[-1]]. *)
Theorem X_summary_statistics
    (t0 x0 y0 u0 v0 ke0 d0 : R) (t x y u v ke d : list R) :
  let s := mkSeries (t0 :: t) (x0 :: x) (y0 :: y) (u0 :: u) (v0 :: v)
                    (ke0 :: ke) (d0 :: d) in
  (exists (trace : list event) (height range : R),
     display_summary_statistics s = (trace, inr tt) /\
     Print (DataPoints (S (length t))) ∈ trace /\
     Print (MaximumHeight height) ∈ trace /\
     height ∈ y0 :: y /\
     (forall h : R, h ∈ y0 :: y -> h <= height) /\
     Print (Range range) ∈ trace /\
     0 <= range) /\
  (forall s' : Series,
     time s' = [] ->
     display_summary_statistics s' = ([Print Banner], inl IndexError)).
Proof.
  intros s. split.
  - exists
      [Print Banner;
       Print (SimulationDuration (List.last (t0 :: t) t0));
       Print (DataPoints (length (t0 :: t)));
       Print (InitialPosition x0 y0);
       Print (FinalPosition (List.last (x0 :: x) x0) (List.last (y0 :: y) y0));
       Print (InitialVelocity u0 v0);
       Print (FinalVelocity (List.last (u0 :: u) u0) (List.last (v0 :: v) v0));
       Print (MaximumHeight (fold_left Rmax y y0));
       Print (Range (fold_left Rmax x x0 - fold_left Rmin x x0));
       Print (MaximumKineticEnergy (fold_left Rmax ke ke0));
       Print (MinimumKineticEnergy (fold_left Rmin ke ke0));
       Print (MaximumDisplacement (fold_left Rmax d d0));
       Print Banner],
      (fold_left Rmax y y0), (fold_left Rmax x x0 - fold_left Rmin x x0).
    destruct (fold_Rmax_spec y y0) as [Hin Hub].
    destruct (fold_Rmax_spec x x0) as [_ Hxmax].
    destruct (fold_Rmin_spec x x0) as [_ Hxmin].
    split; [reflexivity|].
    split; [repeat constructor|].
    split; [repeat constructor|].
    split; [exact Hin|].
    split; [exact Hub|].
    split; [repeat constructor|].
    assert (fold_left Rmin x x0 <= x0) by (apply Hxmin; constructor).
    assert (x0 <= fold_left Rmax x x0) by (apply Hxmax; constructor).
    lra.
  - intros s' Hs'. unfold display_summary_statistics. rewrite Hs'. reflexivity.
Qed.

End Summary.

Section MissingColumn.
Import graph.

Lemma column_missing (df : DataFrame) (key : string) :
  key ∉ (df.*1) -> column df key = raise (KeyError key).
Proof.
  induction df as [|[name values] df IH]; intros Hkey; cbn [column].
  - reflexivity.
  - destruct (String.eqb_spec name key) as [->|Hne].
    + exfalso. apply Hkey. cbn. constructor.
    + apply IH. intros Hin. apply Hkey. cbn. apply list_elem_of_further, Hin.
Qed.

Lemma column_found (df : DataFrame) (key : string) :
  key ∈ df.*1 -> exists values : list R, column df key = mret values.
Proof.
  induction df as [|[name values] df IH]; intros Hkey; cbn [column].
  - cbn in Hkey. apply elem_of_nil in Hkey. contradiction.
  - destruct (String.eqb_spec name key) as [->|Hne].
    + exists values. reflexivity.
    + apply IH. cbn in Hkey. apply elem_of_cons in Hkey as [Heq|Hin];
        [congruence | exact Hin].
Qed.

(** A frame that lacks one of the five columns the analysis reads (a csv
    file with another header) makes the analysis raise KeyError for a
    missing column, right after the report of the load; nothing is
    plotted. *)
Theorem X_missing_column_raises_KeyError (df : DataFrame) :
  (exists key : string, key ∈ run.required_columns /\ key ∉ (df.*1)) ->
  exists key : string,
    key ∈ run.required_columns /\ (key ∉ df.*1) /\
    derive df = ([], inl (KeyError key)) /\
    forall (disk : Disk) (f : string) (save : bool),
      disk !! f = Some (inr df) ->
      generate_physics_graphs disk f save
      = ([Print (Loaded (len df) f)], inl (KeyError key)).
Proof.
  intros (k & Hk & Hmissing).
  assert (Hderive : exists key : string,
            key ∈ run.required_columns /\ (key ∉ df.*1) /\
            derive df = ([], inl (KeyError key))).
  { unfold derive.
    destruct (decide ("Time"%string ∈ df.*1)) as [H1|H1];
      [destruct (column_found _ _ H1) as [c1 ->]; rewrite bind_pure
      |exists "Time"%string; rewrite (column_missing _ _ H1);
       split; [repeat constructor | split; [exact H1 | reflexivity]]].
    destruct (decide ("X_Position"%string ∈ df.*1)) as [H2|H2];
      [destruct (column_found _ _ H2) as [c2 ->]; rewrite bind_pure
      |exists "X_Position"%string; rewrite (column_missing _ _ H2);
       split; [repeat constructor | split; [exact H2 | reflexivity]]].
    destruct (decide ("Y_Position"%string ∈ df.*1)) as [H3|H3];
      [destruct (column_found _ _ H3) as [c3 ->]; rewrite bind_pure
      |exists "Y_Position"%string; rewrite (column_missing _ _ H3);
       split; [repeat constructor | split; [exact H3 | reflexivity]]].
    destruct (decide ("Velocity_X"%string ∈ df.*1)) as [H4|H4];
      [destruct (column_found _ _ H4) as [c4 ->]; rewrite bind_pure
      |exists "Velocity_X"%string; rewrite (column_missing _ _ H4);
       split; [repeat constructor | split; [exact H4 | reflexivity]]].
    destruct (decide ("Velocity_Y"%string ∈ df.*1)) as [H5|H5];
      [destruct (column_found _ _ H5) as [c5 ->]; rewrite bind_pure
      |exists "Velocity_Y"%string; rewrite (column_missing _ _ H5);
       split; [repeat constructor | split; [exact H5 | reflexivity]]].
    exfalso. apply Hmissing. unfold run.required_columns in Hk.
    repeat (apply elem_of_cons in Hk as [->|Hk]; [assumption|]).
    apply elem_of_nil in Hk. contradiction. }
  destruct Hderive as (key & Hreq & Hnot & Hd).
  exists key. split; [exact Hreq|]. split; [exact Hnot|]. split; [exact Hd|].
  intros disk f save Hf. rewrite (generate_loaded disk f save df Hf), Hd.
  reflexivity.
Qed.

Lemma X_missing_column_raises_KeyError_witness :
  let df : DataFrame := [("Time"%string, [0; 1]); ("X"%string, [0; 2])] in
  (exists key : string, key ∈ run.required_columns /\ key ∉ (df.*1)) /\
  exists key : string, derive df = ([], inl (KeyError key)).
Proof.
  cbv zeta.
  assert (H : exists key : string,
            key ∈ run.required_columns /\
            key ∉ ([("Time"%string, [0; 1]); ("X"%string, [0; 2])] : DataFrame).*1).
  { exists "X_Position"%string. split; [repeat constructor|].
    cbn. intros Hin.
    repeat (apply elem_of_cons in Hin as [Hin|Hin]; [discriminate|]).
    apply elem_of_nil in Hin. contradiction. }
  split; [exact H|].
  destruct (X_missing_column_raises_KeyError _ H) as (key & _ & _ & Hd & _).
  exists key. exact Hd.
Defined.

End MissingColumn.

(* ------------------------------------------------------------------ *)
(** ** Finding the input file (graph.py, lines 164-188) *)

Section InputFile.
Import graph.

Lemma endswith_prepend (s t suffix : string) :
  endswith t suffix = true -> endswith (s +:+ t) suffix = true.
Proof.
  intros Ht. induction s as [|c s IH]; [exact Ht|].
  rewrite append_cons. cbn [endswith].
  destruct (String.eqb (String c (s +:+ t)) suffix); [reflexivity|exact IH].
Qed.

Lemma endswith_inv (s suffix : string) :
  endswith s suffix = true -> exists pre : string, s = pre +:+ suffix.
Proof.
  induction s as [|c s IH]; cbn [endswith].
  - destruct (String.eqb_spec "" suffix) as [<-|_]; [|discriminate].
    intros _. exists ""%string. reflexivity.
  - destruct (String.eqb_spec (String c s) suffix) as [<-|_].
    + intros _. exists ""%string. reflexivity.
    + intros H. destruct (IH H) as [pre ->]. exists (String c pre). reflexivity.
Qed.

Lemma after_prefix_inv (p s rest : string) :
  after_prefix p s = Some rest -> s = p +:+ rest.
Proof.
  revert s. induction p as [|a p IH]; intros s; cbn [after_prefix].
  - intros [= ->]. reflexivity.
  - destruct s as [|b s]; [discriminate|].
    destruct (Ascii.eqb_spec a b) as [->|_]; [|discriminate].
    intros H. rewrite (IH _ H). reflexivity.
Qed.

Lemma after_prefix_append (p rest : string) : after_prefix p (p +:+ rest) = Some rest.
Proof.
  induction p as [|a p IH]; [reflexivity|].
  rewrite append_cons. cbn [after_prefix]. rewrite Ascii.eqb_refl. exact IH.
Qed.

(** The names [find_latest_csv] considers are exactly those made of
    "projectile_data_", any text, and ".csv". *)
Lemma matches_pattern_spec (name : string) :
  matches_pattern name = true
  <-> exists mid : string, name = "projectile_data_" +:+ mid +:+ ".csv".
Proof.
  unfold matches_pattern. split.
  - destruct (after_prefix "projectile_data_" name) as [rest|] eqn:E; [|discriminate].
    intros H. apply after_prefix_inv in E. apply endswith_inv in H as [mid ->].
    exists mid. exact E.
  - intros [mid ->]. rewrite after_prefix_append. apply endswith_append.
Qed.

(** The names the recorder generates are among those the analysis looks
    for: a recorder constructed without a file name writes a file that
    [find_latest_csv] considers. A file written under a caller-supplied
    name is considered only if that name has the same prefix and
    suffix. *)
Theorem X_generated_name_matches_pattern (now : logger.datetime) (w : logger.World) :
  (1000 <= logger.year now <= 9999)%N ->
  matches_pattern (logger.filename (fst (logger.__init__ None now w))) = true /\
  (forall name : string,
     matches_pattern (logger.filename (fst (logger.__init__ (Some name) now w))) = true
     <-> exists mid : string, name = "projectile_data_" +:+ mid +:+ ".csv").
Proof.
  intros Hy. split.
  - apply matches_pattern_spec. rewrite (generated_name now w Hy).
    exists (spec.four_digits (logger.year now)
            +:+ logger.two_digits (logger.month now)
            +:+ logger.two_digits (logger.day now)
            +:+ "_"
            +:+ logger.two_digits (logger.hour now)
            +:+ logger.two_digits (logger.minute now)
            +:+ logger.two_digits (logger.second now)).
    rewrite !append_assoc. reflexivity.
  - intros name. apply matches_pattern_spec.
Qed.

Lemma X_generated_name_matches_pattern_witness :
  (1000 <= logger.year (logger.mkDatetime 2025 6 1 12 34 56) <= 9999)%N /\
  matches_pattern
    (logger.filename
       (fst (logger.__init__ None (logger.mkDatetime 2025 6 1 12 34 56)
               (logger.mkWorld ∅ [])))) = true.
Proof.
  assert (Hy : (1000 <= logger.year (logger.mkDatetime 2025 6 1 12 34 56) <= 9999)%N)
    by (cbn [logger.year]; lia).
  split; [exact Hy|].
  exact (proj1 (X_generated_name_matches_pattern _ (logger.mkWorld ∅ []) Hy)).
Defined.

Lemma latest_spec (rest : list (string * R)) (best : string * R) :
  latest best rest ∈ best :: rest /\
  (forall f : string * R, f ∈ best :: rest -> snd f <= snd (latest best rest)) /\
  ((forall f : string * R, f ∈ rest -> snd f <= snd best) -> latest best rest = best).
Proof.
  revert best. induction rest as [|g rest IH]; intros best; cbn [latest].
  - split; [constructor|]. split; [|reflexivity].
    intros f Hf. apply list_elem_of_singleton in Hf as ->. lra.
  - destruct (Rltb (snd best) (snd g)) eqn:Hlt.
    + apply Rltb_true in Hlt. destruct (IH g) as (Hin & Hub & _).
      split; [apply list_elem_of_further, Hin|]. split.
      * intros f Hf. apply elem_of_cons in Hf as [->|Hf]; [|apply Hub, Hf].
        apply Rle_trans with (snd g); [lra | apply Hub; constructor].
      * intros Hall. exfalso.
        assert (snd g <= snd best) by (apply Hall; constructor). lra.
    + apply Rltb_false in Hlt. destruct (IH best) as (Hin & Hub & Hfirst).
      split.
      { apply elem_of_cons in Hin as [->|Hin]; [constructor|].
        do 2 apply list_elem_of_further. exact Hin. }
      split.
      * intros f Hf. apply elem_of_cons in Hf as [->|Hf]; [apply Hub; constructor|].
        apply elem_of_cons in Hf as [->|Hf].
        -- apply Rle_trans with (snd best); [exact Hlt | apply Hub; constructor].
        -- apply Hub. apply list_elem_of_further, Hf.
      * intros Hall. apply Hfirst. intros f Hf. apply Hall.
        apply list_elem_of_further, Hf.
Qed.

Lemma filter_matches (cwd : list (string * R)) (f : string * R) :
  f ∈ List.filter (fun f => matches_pattern (fst f)) cwd
  <-> f ∈ cwd /\ matches_pattern (fst f) = true.
Proof. rewrite !list_elem_of_In. apply filter_In. Qed.

Lemma find_latest_csv_cases (cwd : list (string * R)) :
  ((forall f : string * R, f ∈ cwd -> matches_pattern (fst f) = false) /\
   find_latest_csv cwd = ([NoCsvFiles], None)) \/
  exists (name : string) (mtime : R),
    find_latest_csv cwd = ([], Some name) /\
    (name, mtime) ∈ cwd /\
    matches_pattern name = true /\
    forall f : string * R,
      f ∈ cwd -> matches_pattern (fst f) = true -> snd f <= mtime.
Proof.
  unfold find_latest_csv.
  destruct (List.filter (fun f => matches_pattern (fst f)) cwd) as [|g rest] eqn:E.
  - left. split; [|reflexivity].
    intros f Hf. destruct (matches_pattern (fst f)) eqn:Hm; [|reflexivity].
    exfalso. assert (Hin : f ∈ List.filter (fun f => matches_pattern (fst f)) cwd)
      by (apply filter_matches; split; assumption).
    rewrite E in Hin. apply elem_of_nil in Hin. exact Hin.
  - right. destruct (latest_spec rest g) as (Hin & Hub & _).
    rewrite <- E in Hin. apply filter_matches in Hin as [Hcwd Hm].
    exists (fst (latest g rest)), (snd (latest g rest)).
    split; [reflexivity|].
    split; [rewrite <- surjective_pairing; exact Hcwd|].
    split; [exact Hm|].
    intros f Hf Hfm. apply Hub. rewrite <- E. apply filter_matches.
    split; assumption.
Qed.

(** [find_latest_csv] finds nothing, and says so, exactly when no name in
    the directory matches the pattern. Otherwise it returns, without a
    notice, the name of a matching file whose modification time is at
    least that of every matching file. *)
Theorem X_find_latest_csv (cwd : list (string * R)) :
  (find_latest_csv cwd = ([NoCsvFiles], None)
   <-> forall f : string * R, f ∈ cwd -> matches_pattern (fst f) = false) /\
  (find_latest_csv cwd = ([NoCsvFiles], None) \/
   exists (name : string) (mtime : R),
     find_latest_csv cwd = ([], Some name) /\
     (name, mtime) ∈ cwd /\
     matches_pattern name = true /\
     forall f : string * R,
       f ∈ cwd -> matches_pattern (fst f) = true -> snd f <= mtime).
Proof.
  destruct (find_latest_csv_cases cwd)
    as [[Hnone Hfind]|(name & mtime & Hfind & Hin & Hm & Hub)].
  - split; [split; [intros _; exact Hnone | intros _; exact Hfind]|].
    left. exact Hfind.
  - split.
    + rewrite Hfind. split; [discriminate|].
      intros Hnone. exfalso. pose proof (Hnone _ Hin) as Hno.
      cbn [fst] in Hno. congruence.
    + right. exists name, mtime. repeat split; assumption.
Qed.

End InputFile.

(* ------------------------------------------------------------------ *)
(** ** The prompt and the entry point (graph.py, lines 172-188) *)

Section EntryPoint.
Import graph.

Lemma lstrip_blank (s : string) : run.blank s = true -> lstrip s = ""%string.
Proof.
  induction s as [|c s IH]; cbn [run.blank lstrip]; [reflexivity|].
  intros H. apply andb_prop in H as [Hc Hs]. rewrite Hc. exact (IH Hs).
Qed.

Lemma matching_name_not_empty (name : string) :
  matches_pattern name = true -> exists (c : ascii) (rest : string), name = String c rest.
Proof.
  intros H. apply matches_pattern_spec in H as [mid ->]. eexists _, _. reflexivity.
Qed.

(** A blank answer to the file name prompt (nothing, or white space only)
    is not refused: the name returned is ".csv". *)
Theorem X_blank_answer_names_dot_csv (typed : string) (rest : list string) :
  run.blank typed = true ->
  get_csv_filename_from_user None (typed :: rest) = inr (".csv"%string, rest).
Proof.
  intros H. unfold get_csv_filename_from_user, input, strip.
  rewrite (lstrip_blank typed H). reflexivity.
Qed.

Lemma X_blank_answer_names_dot_csv_witness :
  run.blank "   " = true /\
  get_csv_filename_from_user None ["   "%string; "next"%string]
  = inr (".csv"%string, ["next"%string]).
Proof.
  assert (H : run.blank "   " = true) by reflexivity.
  split; [exact H|].
  exact (X_blank_answer_names_dot_csv "   " ["next"%string] H).
Defined.

(** Accepting the default. When the directory holds a matching file and
    the user answers the first prompt with Enter or y (in any case, with
    any white space around), [main] asks nothing more and analyses the
    file [find_latest_csv] found: after the banner, what it does and
    whether it raises is what [generate_physics_graphs] does on that file,
    with [save_plots] on. *)
Theorem X_main_accepts_latest
    (cwd : list (string * R)) (answer : string) (rest : list string) (disk : Disk) :
  (exists f : string * R, f ∈ cwd /\ matches_pattern (fst f) = true) ->
  lower (strip answer) = "y"%string \/ lower (strip answer) = ""%string ->
  exists name : string,
    find_latest_csv cwd = ([], Some name) /\
    get_csv_filename_from_user (Some name) (answer :: rest) = inr (name, rest) /\
    main cwd (answer :: rest) disk
    = (Notice GeneratorBanner
         :: map Analysis (fst (generate_physics_graphs disk name true)),
       snd (generate_physics_graphs disk name true)).
Proof.
  intros (f & Hf & Hfm) Hanswer.
  destruct (find_latest_csv_cases cwd)
    as [[Hnone _]|(name & mtime & Hfind & _ & Hm & _)].
  - exfalso. rewrite (Hnone f Hf) in Hfm. discriminate.
  - exists name. split; [exact Hfind|].
    destruct (matching_name_not_empty name Hm) as (c & tail & ->).
    assert (Hask : get_csv_filename_from_user (Some (String c tail)) (answer :: rest)
                   = inr (String c tail, rest)).
    { unfold get_csv_filename_from_user, input.
      destruct Hanswer as [-> | ->]; reflexivity. }
    split; [exact Hask|].
    unfold main. rewrite Hfind, Hask.
    destruct (generate_physics_graphs disk (String c tail) true) as [trace r].
    reflexivity.
Qed.

Lemma X_main_accepts_latest_witness :
  let cwd := [("notes.txt"%string, 9); ("projectile_data_a.csv"%string, 1);
              ("projectile_data_b.csv"%string, 2)] in
  (exists f : string * R, f ∈ cwd /\ matches_pattern (fst f) = true) /\
  (lower (strip " Y ") = "y"%string \/ lower (strip " Y ") = ""%string) /\
  exists name : string,
    main cwd [" Y "%string] ∅
    = (Notice GeneratorBanner
         :: map Analysis (fst (generate_physics_graphs ∅ name true)),
       snd (generate_physics_graphs ∅ name true)).
Proof.
  cbv zeta.
  assert (H1 : exists f : string * R,
            f ∈ [("notes.txt"%string, 9); ("projectile_data_a.csv"%string, 1);
                 ("projectile_data_b.csv"%string, 2)]
            /\ matches_pattern (fst f) = true).
  { exists ("projectile_data_a.csv"%string, 1). split; [|reflexivity].
    apply list_elem_of_further. constructor. }
  assert (H2 : lower (strip " Y ") = "y"%string \/ lower (strip " Y ") = ""%string)
    by (left; reflexivity).
  split; [exact H1|]. split; [exact H2|].
  destruct (X_main_accepts_latest _ " Y "%string [] ∅ H1 H2) as (name & _ & _ & Hmain).
  exists name. exact Hmain.
Defined.

(** With no matching file in the directory, [main] says so and asks for a
    name once. At end of input it raises EOFError. Otherwise it analyses
    the typed name, stripped and with ".csv" appended when absent; if no
    such file exists it reports that and returns. *)
Theorem X_main_without_files
    (cwd : list (string * R)) (typed : string) (rest : list string) (disk : Disk) :
  (forall f : string * R, f ∈ cwd -> matches_pattern (fst f) = false) ->
  main cwd [] disk = ([Notice GeneratorBanner; Notice NoCsvFiles], inl EOFError) /\
  exists name : string,
    endswith name ".csv" = true /\
    get_csv_filename_from_user None (typed :: rest) = inr (name, rest) /\
    main cwd (typed :: rest) disk
    = (Notice GeneratorBanner :: Notice NoCsvFiles
         :: map Analysis (fst (generate_physics_graphs disk name true)),
       snd (generate_physics_graphs disk name true)) /\
    (disk !! name = None ->
     main cwd (typed :: rest) disk
     = ([Notice GeneratorBanner; Notice NoCsvFiles;
         Analysis (Print (CouldNotFind name))], inr tt)).
Proof.
  intros Hnone.
  assert (Hfind : find_latest_csv cwd = ([NoCsvFiles], None)).
  { destruct (find_latest_csv_cases cwd)
      as [[_ Hfind]|(name & mtime & _ & Hin & Hm & _)]; [exact Hfind|].
    exfalso. pose proof (Hnone _ Hin) as Hno. cbn [fst] in Hno. congruence. }
  split.
  { unfold main. rewrite Hfind. reflexivity. }
  set (name := if endswith (strip typed) ".csv"
               then strip typed else strip typed +:+ ".csv").
  assert (Hask : get_csv_filename_from_user None (typed :: rest) = inr (name, rest))
    by reflexivity.
  assert (Hmain : main cwd (typed :: rest) disk
    = (Notice GeneratorBanner :: Notice NoCsvFiles
         :: map Analysis (fst (generate_physics_graphs disk name true)),
       snd (generate_physics_graphs disk name true))).
  { unfold main. rewrite Hfind, Hask.
    destruct (generate_physics_graphs disk name true) as [trace r]. reflexivity. }
  exists name. split.
  { unfold name. destruct (endswith (strip typed) ".csv") eqn:E;
      [exact E | apply endswith_append]. }
  split; [exact Hask|]. split; [exact Hmain|].
  intros Hmissing. rewrite Hmain.
  unfold generate_physics_graphs, load_data. rewrite Hmissing. reflexivity.
Qed.

Lemma X_main_without_files_witness :
  let cwd := [("notes.txt"%string, 9); ("run1.csv"%string, 3)] in
  (forall f : string * R, f ∈ cwd -> matches_pattern (fst f) = false) /\
  main cwd [] ∅ = ([Notice GeneratorBanner; Notice NoCsvFiles], inl EOFError).
Proof.
  cbv zeta.
  assert (H : forall f : string * R,
            f ∈ [("notes.txt"%string, 9); ("run1.csv"%string, 3)] ->
            matches_pattern (fst f) = false).
  { intros f Hf.
    apply elem_of_cons in Hf as [->|Hf]; [reflexivity|].
    apply elem_of_cons in Hf as [->|Hf]; [reflexivity|].
    apply elem_of_nil in Hf. contradiction. }
  split; [exact H|].
  exact (proj1 (X_main_without_files _ ""%string [] ∅ H)).
Defined.

End EntryPoint.

(* ------------------------------------------------------------------ *)
(** ** Leaving the ground (Renderer.py, lines 64-78) *)

Section LiftOff.
Import Renderer.

(** A launch from the ground line lifts off in a frame of positive length
    exactly when the vertical velocity is still positive after gravity has
    acted on it for that frame: then the ball is above the ground line,
    keeps both velocities of the integration, and is airborne; otherwise
    the frame stops it on the ground line. *)
Theorem X_launch_from_ground (c : config.t) (b : Ball) (dt : R) :
  ball_bottom_y b = GROUND_Y -> Airborne b -> 0 < dt ->
  (0 < vy b + config.Gravity c * dt ->
   update_physics c dt b = integrate c dt b /\
   0 < world_y (update_physics c dt b) /\
   Airborne (update_physics c dt b)) /\
  (vy b + config.Gravity c * dt <= 0 ->
   update_physics c dt b = mkBall (ball_bottom_x (integrate c dt b)) GROUND_Y 0 0).
Proof.
  intros Hy Hair Hdt.
  assert (Hby : ball_bottom_y (integrate c dt b)
                = GROUND_Y - (vy b + config.Gravity c * dt) * dt * 60).
  { unfold integrate; cbn [ball_bottom_y]. rewrite Hy, PIXELS_PER_METER_value.
    reflexivity. }
  split.
  - intros Hup.
    assert (Hlt : ball_bottom_y (integrate c dt b) < GROUND_Y) by (rewrite Hby; nra).
    destruct (update_cases c dt b) as [[Hg _]|[(_ & _ & Hu)|(_ & Hge & _)]].
    + unfold Airborne in Hair. congruence.
    + rewrite Hu. split; [reflexivity|]. split.
      * unfold world_y. rewrite PIXELS_PER_METER_value.
        apply (Rmult_lt_reg_r 60); [lra|].
        replace ((GROUND_Y - ball_bottom_y (integrate c dt b)) / 60 * 60)
          with (GROUND_Y - ball_bottom_y (integrate c dt b)) by field.
        lra.
      * unfold Airborne, physics_guard.
        apply Rltb_true in Hlt. rewrite Hlt. reflexivity.
    + exfalso. lra.
  - intros Hdown.
    assert (Hge : GROUND_Y <= ball_bottom_y (integrate c dt b)) by (rewrite Hby; nra).
    destruct (update_cases c dt b) as [[Hg _]|[(_ & Hlt & _)|(_ & _ & Hu)]].
    + unfold Airborne in Hair. congruence.
    + exfalso. lra.
    + exact Hu.
Qed.

Lemma X_launch_from_ground_witness :
  ball_bottom_y (initial config.source) = GROUND_Y /\
  Airborne (initial config.source) /\
  0 < / 60 /\
  update_physics config.source (/ 60) (initial config.source)
  = integrate config.source (/ 60) (initial config.source).
Proof.
  assert (Hy : ball_bottom_y (initial config.source) = GROUND_Y).
  { unfold initial, config.source; cbn [ball_bottom_y config.InitialHeight]. lra. }
  assert (Hdt : 0 < / 60) by lra.
  split; [exact Hy|]. split; [exact initial_source_Airborne|]. split; [exact Hdt|].
  apply (proj1 (X_launch_from_ground config.source _ (/ 60) Hy
                  initial_source_Airborne Hdt)).
  unfold initial, config.initialVelocityY, config.source;
    cbn [vy config.Theta config.Velocity config.Gravity].
  rewrite radians_45, sin_PI4. pose proof nine_over_sqrt2. lra.
Defined.

End LiftOff.
